(** * Blogicum: visibility, permissions and listing queries of [blog/views.py]

    A shallow embedding of the view layer of the blog application.  The
    persistence layer is a record of tables, each a finite map from primary
    key to row; querysets are lists of rows; a view that can raise is a
    computation in an exception monad, and a request handler threads the
    database through it. *)

From stdpp Require Import gmap strings list sorting.

Local Open Scope Z_scope.

(** ** Entities *)

(** Modelled from the spec: [blog/models.py] is not among the sources.  The
    entities and their fields are those of section 3 of the specification; a
    reference to another entity is the primary key of the row it points to,
    and the primary key of a row is its key in the table. *)
Record User := mkUser {
  username : string;
  first_name : string;
  last_name : string;
  email : string
}.

Record Category := mkCategory {
  category_title : string;
  slug : string;
  category_is_published : bool
}.

Record Post := mkPost {
  title : string;
  text : string;
  author : Z;
  category : Z;
  location : option Z;
  pub_date : Z;
  is_published : bool;
  created_at : Z
}.

Record Comment := mkComment {
  comment_post : Z;
  comment_author : Z;
  comment_text : string;
  comment_created_at : Z
}.

Record DB := mkDB {
  users : gmap Z User;
  categories : gmap Z Category;
  posts : gmap Z Post;
  comments : gmap Z Comment
}.

(** ** Exceptions and the two monads of the view layer *)

Inductive exn :=
  | Http404
  | PermissionDenied
  | DoesNotExist
  | MultipleObjectsReturned
  | ValueError
  | TypeError.

Inductive result (A : Type) :=
  | Ok (a : A)
  | Raise (e : exn).
Arguments Ok {A} a.
Arguments Raise {A} e.

Definition result_bind {A B} (r : result A) (k : A → result B) : result B :=
  match r with
  | Ok a => k a
  | Raise e => Raise e
  end.

(** A handler reads and writes the database and may raise. *)
Definition view (A : Type) : Type := DB → result A * DB.

Definition view_ret {A} (a : A) : view A := λ db, (Ok a, db).
Definition view_raise {A} (e : exn) : view A := λ db, (Raise e, db).
Definition view_bind {A B} (m : view A) (k : A → view B) : view B :=
  λ db, match m db with
        | (Ok a, db') => k a db'
        | (Raise e, db') => (Raise e, db')
        end.
(** A read-only query run inside a handler. *)
Definition query {A} (q : DB → result A) : view A := λ db, (q db, db).
Definition modify (f : DB → DB) : view unit := λ db, (Ok tt, f db).

Notation "x ←ᵣ r ;; k" := (result_bind r (λ x, k))
  (at level 100, r at next level, right associativity, only parsing).
Notation "x ←ᵥ m ;; k" := (view_bind m (λ x, k))
  (at level 100, m at next level, right associativity, only parsing).

(** ** Querysets *)

(** A model instance: the primary key with the row. *)
Record Instance (M : Type) := mkInstance { pk : Z; fields : M }.
Arguments mkInstance {M} pk fields.
Arguments pk {M} i.
Arguments fields {M} i.

Definition objects {M} (table : gmap Z M) : list (Instance M) :=
  (λ kv, mkInstance kv.1 kv.2) <$> map_to_list table.

(** [QuerySet.get]: exactly one row, or an exception. *)
Definition get {A} (qs : list A) : result A :=
  match qs with
  | [] => Raise DoesNotExist
  | [x] => Ok x
  | _ => Raise MultipleObjectsReturned
  end.

(** [django.shortcuts.get_object_or_404]: [DoesNotExist] becomes [Http404],
    any other exception passes through. *)
Definition get_object_or_404 {A} (qs : list A) : result A :=
  match get qs with
  | Raise DoesNotExist => Raise Http404
  | r => r
  end.

(** A row of a [Post] queryset; [annotate] fills [comment_count]. *)
Record PostRow := mkPostRow {
  post_pk : Z;
  post : Post;
  comment_count : option nat
}.

Definition Post_objects (db : DB) : list PostRow :=
  (λ kv, mkPostRow kv.1 kv.2 None) <$> map_to_list (posts db).

(** [Count('comments')]: the comments whose [post] is the row. *)
Definition Count_comments (db : DB) (post_id : Z) : nat :=
  length (filter (λ c, comment_post (fields c) = post_id) (objects (comments db))).

Definition annotate_comment_count (db : DB) (qs : list PostRow) : list PostRow :=
  (λ r, mkPostRow (post_pk r) (post r) (Some (Count_comments db (post_pk r)))) <$> qs.

(** [order_by('-pub_date')]: later posts first.  The database is free in the
    order of posts of equal date; the model sorts by merging. *)
Definition pub_date_desc (a b : PostRow) : Prop :=
  pub_date (post b) ≤ pub_date (post a).

#[local] Instance pub_date_desc_dec a b : Decision (pub_date_desc a b) :=
  decide (pub_date (post b) ≤ pub_date (post a)).

Definition order_by_pub_date_desc (qs : list PostRow) : list PostRow :=
  merge_sort pub_date_desc qs.

(** The lookup [category__is_published=True]: an inner join with the
    category table. *)
Definition category__is_published (db : DB) (r : PostRow) : Prop :=
  category_is_published <$> (categories db !! category (post r)) = Some true.

#[local] Instance category__is_published_dec db r :
  Decision (category__is_published db r).
Proof. unfold category__is_published. apply _. Defined.

(** ** Listing views *)

(** [PostListView.get_queryset] *)
Definition PostListView_get_queryset (db : DB) (now : Z) : list PostRow :=
  annotate_comment_count db
    (order_by_pub_date_desc
      (filter (λ r, is_published (post r) = true
                    ∧ pub_date (post r) ≤ now
                    ∧ category__is_published db r)
              (Post_objects db))).

(** ** Requests and responses *)

(** [request.user]: a stored user, or Django's [AnonymousUser]. *)
Inductive request_user :=
  | AnonymousUser
  | LoggedIn (user_id : Z).

Definition is_authenticated (u : request_user) : bool :=
  match u with
  | AnonymousUser => false
  | LoggedIn _ => true
  end.

(** [obj.author == request.user]: model instances are equal when their
    primary keys are; [AnonymousUser] equals no stored user. *)
Definition author_eq (author_id : Z) (u : request_user) : bool :=
  match u with
  | AnonymousUser => false
  | LoggedIn user_id => bool_decide (author_id = user_id)
  end.

Inductive http_method := GET | POST.

(** A request carries the actor, the method and, where the method is [POST],
    the cleaned data of the submitted form when that form validates.  Form
    validation itself belongs to [blog/forms.py], which is not among the
    sources. *)
Record request (F : Type) := mkRequest {
  user : request_user;
  method : http_method;
  form : option F
}.
Arguments mkRequest {F} user method form.
Arguments user {F} r.
Arguments method {F} r.
Arguments form {F} r.

(** Modelled from the spec: [blog/forms.py] is not among the sources.  The
    post form edits every field of a post but its author and creation time,
    the comment form edits the text, the profile form edits the user row. *)
Record PostForm := mkPostForm {
  form_title : string;
  form_text : string;
  form_category : Z;
  form_location : option Z;
  form_pub_date : Z;
  form_is_published : bool
}.
Definition CommentForm := string.
Definition UserProfileForm := User.

(** Named routes of the [blog] namespace, as [reverse] resolves them, and the
    login page. *)
Inductive url :=
  | index
  | post_detail (post_id : Z)
  | profile (name : string)
  | login (login_url : string).

Inductive response :=
  | TemplateResponse (template_name : string)
  | HttpResponseRedirect (to : url)
  | HttpResponseNotFound
  | HttpResponseForbidden
  | HttpResponseServerError.

(** What the framework answers when a handler raises. *)
Definition respond (v : view response) (db : DB) : response * DB :=
  match v db with
  | (Ok r, db') => (r, db')
  | (Raise Http404, db') => (HttpResponseNotFound, db')
  | (Raise PermissionDenied, db') => (HttpResponseForbidden, db')
  | (Raise _, db') => (HttpResponseServerError, db')
  end.

(** ** Writes *)

Definition set_users (f : gmap Z User → gmap Z User) (db : DB) : DB :=
  mkDB (f (users db)) (categories db) (posts db) (comments db).
Definition set_posts (f : gmap Z Post → gmap Z Post) (db : DB) : DB :=
  mkDB (users db) (categories db) (f (posts db)) (comments db).
Definition set_comments (f : gmap Z Comment → gmap Z Comment) (db : DB) : DB :=
  mkDB (users db) (categories db) (posts db) (f (comments db)).

(** [Model.save] of a new row: the table picks an unused key. *)
Definition create_post (p : Post) : view Z :=
  λ db, let k := fresh (dom (posts db)) in (Ok k, set_posts <[k := p]> db).
Definition create_comment (c : Comment) : view Z :=
  λ db, let k := fresh (dom (comments db)) in (Ok k, set_comments <[k := c]> db).

(** [Model.delete] of a post takes the comments that belong to it along. *)
Definition delete_post (k : Z) : view unit :=
  modify (λ db, set_comments (filter (λ kc, comment_post kc.2 ≠ k))
                  (set_posts (delete k) db)).
Definition delete_comment (k : Z) : view unit :=
  modify (set_comments (delete k)).

(** Following a foreign key. *)
Definition related {M} (table : gmap Z M) (k : Z) : result M :=
  match table !! k with
  | Some x => Ok x
  | None => Raise DoesNotExist
  end.

(** ** Generic behaviour inherited from the framework *)

(** [LoginRequiredMixin.dispatch]: an anonymous caller is sent to the login
    page, anyone else reaches the next [dispatch] in the chain. *)
Definition LoginRequiredMixin_dispatch {F} (login_url : string)
    (request : request F) (super : view response) : view response :=
  if is_authenticated (user request) then super
  else view_ret (HttpResponseRedirect (login login_url)).

(** [ProcessFormView]: [GET] renders the form; [POST] runs [form_valid] on a
    valid form and renders the form again otherwise. *)
Definition ProcessFormView {F} (template_name : string) (request : request F)
    (form_valid : F → view response) : view response :=
  match method request with
  | GET => view_ret (TemplateResponse template_name)
  | POST =>
      match form request with
      | Some f => form_valid f
      | None => view_ret (TemplateResponse template_name)
      end
  end.

(** [SingleObjectMixin.get_object]: the row of the queryset with that key. *)
Definition SingleObjectMixin_get_object {M} (queryset : list (Instance M))
    (key : Z) : result (Instance M) :=
  get_object_or_404 (filter (λ o, pk o = key) queryset).

(** ** The views of [blog/views.py] *)

Section Views.

(** [settings.LOGIN_URL]; the settings module is not among the sources. *)
Variable LOGIN_URL : string.

(** *** [PostCreateView] *)

Definition PostCreateView_form_valid (now : Z) (request : request PostForm)
    (f : PostForm) : view response :=
  (* form.instance.author = self.request.user *)
  match user request with
  | AnonymousUser => view_raise ValueError
  | LoggedIn user_id =>
      let instance :=
        mkPost (form_title f) (form_text f) user_id (form_category f)
               (form_location f) (form_pub_date f) (form_is_published f) now in
      (* super().form_valid(form) saves and redirects to get_success_url() *)
      _ ←ᵥ create_post instance;;
      a ←ᵥ query (λ db, related (users db) (author instance));;
      view_ret (HttpResponseRedirect (profile (username a)))
  end.

Definition PostCreateView_dispatch (now : Z) (request : request PostForm)
    : view response :=
  LoginRequiredMixin_dispatch "/login/" request
    (ProcessFormView "blog/create.html" request
       (PostCreateView_form_valid now request)).

(** *** [PostUpdateView] *)

Definition PostUpdateView_get_object (key : Z) (db : DB) : result (Instance Post) :=
  SingleObjectMixin_get_object (objects (posts db)) key.

Definition PostUpdateView_test_func (request : request PostForm) (key : Z)
    (db : DB) : result bool :=
  object ←ᵣ PostUpdateView_get_object key db;;
  Ok (is_authenticated (user request)
      && author_eq (author (fields object)) (user request)).

(** What [UpdateView] does with the object once [dispatch] lets the request
    through: show the form, or save a valid one and go to the post. *)
Definition PostUpdateView_handler (request : request PostForm)
    (object : Instance Post) : view response :=
  ProcessFormView "blog/create.html" request (λ f,
    let old := fields object in
    let instance :=
      mkPost (form_title f) (form_text f) (author old) (form_category f)
             (form_location f) (form_pub_date f) (form_is_published f)
             (created_at old) in
    _ ←ᵥ modify (set_posts <[pk object := instance]>);;
    view_ret (HttpResponseRedirect (post_detail (pk object)))).

Definition PostUpdateView_super_dispatch (request : request PostForm) (key : Z)
    : view response :=
  object ←ᵥ query (PostUpdateView_get_object key);;
  PostUpdateView_handler request object.

Definition PostUpdateView_dispatch (request : request PostForm) (key : Z)
    : view response :=
  allowed ←ᵥ query (PostUpdateView_test_func request key);;
  if negb allowed then view_ret (HttpResponseRedirect (post_detail key))
  else PostUpdateView_super_dispatch request key.

(** *** [PostDeleteView] *)

Definition PostDeleteView_get_queryset (request : request unit) (db : DB)
    : result (list (Instance Post)) :=
  match user request with
  | AnonymousUser => Raise TypeError
  | LoggedIn user_id =>
      Ok (filter (λ o, author (fields o) = user_id) (objects (posts db)))
  end.

Definition PostDeleteView_get_object (request : request unit) (post_id : Z)
    (db : DB) : result (Instance Post) :=
  qs ←ᵣ PostDeleteView_get_queryset request db;;
  SingleObjectMixin_get_object qs post_id.

(** [DeleteView] on the object: ask for confirmation, or delete. *)
Definition PostDeleteView_handler (request : request unit)
    (object : Instance Post) : view response :=
  match method request with
  | GET => view_ret (TemplateResponse "blog/create.html")
  | POST =>
      _ ←ᵥ delete_post (pk object);;
      view_ret (HttpResponseRedirect index)
  end.

Definition PostDeleteView_super_dispatch (request : request unit) (post_id : Z)
    : view response :=
  object ←ᵥ query (PostDeleteView_get_object request post_id);;
  PostDeleteView_handler request object.

Definition PostDeleteView_dispatch (request : request unit) (post_id : Z)
    : view response :=
  LoginRequiredMixin_dispatch LOGIN_URL request
    (PostDeleteView_super_dispatch request post_id).

(** *** [PostDetailView] *)

(** The condition is evaluated left to right and stops as soon as it is
    decided: [post.category] is followed only for a published post of another
    author. *)
Definition PostDetailView_get_object (viewer : request_user) (now : Z)
    (post_id : Z) (db : DB) : result (Instance Post) :=
  post ←ᵣ get_object_or_404 (filter (λ o, pk o = post_id) (objects (posts db)));;
  if author_eq (author (fields post)) viewer then Ok post
  else if is_published (fields post) then
    c ←ᵣ related (categories db) (category (fields post));;
    if category_is_published c && bool_decide (pub_date (fields post) ≤ now)
    then Ok post
    else Raise Http404
  else Raise Http404.

(** [post.comments.all().order_by('created_at')] of [get_context_data]. *)
Definition created_at_asc (a b : Instance Comment) : Prop :=
  comment_created_at (fields a) ≤ comment_created_at (fields b).

#[local] Instance created_at_asc_dec a b : Decision (created_at_asc a b) :=
  decide (comment_created_at (fields a) ≤ comment_created_at (fields b)).

Definition PostDetailView_comments (post : Instance Post) (db : DB)
    : list (Instance Comment) :=
  merge_sort created_at_asc
    (filter (λ c, comment_post (fields c) = pk post) (objects (comments db))).

(** *** [ProfileView] *)

(** The viewer is at hand in [self.request] and is not consulted. *)
Definition ProfileView_get_queryset (viewer : request_user) (name : string)
    (db : DB) : result (list PostRow) :=
  profile ←ᵣ get_object_or_404
               (filter (λ u, username (fields u) = name) (objects (users db)));;
  let posts := filter (λ r, author (post r) = pk profile) (Post_objects db) in
  let posts_annotated := annotate_comment_count db posts in
  Ok (order_by_pub_date_desc posts_annotated).

(** *** [CategoryPostsView] *)

Definition CategoryPostsView_category (category_slug : string) (db : DB)
    : result (Instance Category) :=
  get_object_or_404
    (filter (λ c, slug (fields c) = category_slug
                  ∧ category_is_published (fields c) = true)
            (objects (categories db))).

Definition CategoryPostsView_get_queryset (now : Z) (category_slug : string)
    (db : DB) : result (list PostRow) :=
  self_category ←ᵣ CategoryPostsView_category category_slug db;;
  let queryset :=
    order_by_pub_date_desc
      (filter (λ r, is_published (post r) = true
                    ∧ pub_date (post r) ≤ now
                    ∧ category (post r) = pk self_category)
              (Post_objects db)) in
  let queryset := annotate_comment_count db queryset in
  let queryset := filter (category__is_published db) queryset in
  Ok queryset.

(** The same query with the publication of the category checked once, when
    the category is fetched, as the specification asks of an implementation. *)
Definition category_feed_filtered_once (now : Z) (category_slug : string)
    (db : DB) : result (list PostRow) :=
  self_category ←ᵣ CategoryPostsView_category category_slug db;;
  Ok (annotate_comment_count db
        (order_by_pub_date_desc
           (filter (λ r, is_published (post r) = true
                         ∧ pub_date (post r) ≤ now
                         ∧ category (post r) = pk self_category)
                   (Post_objects db)))).

(** *** [EditProfileView] *)

Definition EditProfileView_get_object (request : request UserProfileForm)
    (db : DB) : result (Instance User) :=
  match user request with
  | AnonymousUser => Raise TypeError
  | LoggedIn user_id =>
      u ←ᵣ related (users db) user_id;;
      Ok (mkInstance user_id u)
  end.

Definition EditProfileView_dispatch (request : request UserProfileForm)
    : view response :=
  LoginRequiredMixin_dispatch LOGIN_URL request
    (object ←ᵥ query (EditProfileView_get_object request);;
     ProcessFormView "blog/user.html" request (λ f,
       _ ←ᵥ modify (set_users <[pk object := f]>);;
       view_ret (HttpResponseRedirect (profile (username f))))).

(** *** [AddCommentView] *)

Definition AddCommentView_form_valid (now : Z) (request : request CommentForm)
    (post_id : Z) (f : CommentForm) : view response :=
  post ←ᵥ query (λ db, get_object_or_404
                         (filter (λ o, pk o = post_id) (objects (posts db))));;
  match user request with
  | AnonymousUser => view_raise ValueError
  | LoggedIn user_id =>
      _ ←ᵥ create_comment (mkComment (pk post) user_id f now);;
      view_ret (HttpResponseRedirect (post_detail post_id))
  end.

Definition AddCommentView_dispatch (now : Z) (request : request CommentForm)
    (post_id : Z) : view response :=
  LoginRequiredMixin_dispatch LOGIN_URL request
    (ProcessFormView "comments.html" request
       (AddCommentView_form_valid now request post_id)).

(** *** [EditCommentView] *)

Definition EditCommentView_get_object (comment_id : Z) (db : DB)
    : result (Instance Comment) :=
  get_object_or_404 (filter (λ o, pk o = comment_id) (objects (comments db))).

Definition EditCommentView_handler (request : request CommentForm)
    (object : Instance Comment) : view response :=
  ProcessFormView "blog/comment.html" request (λ f,
    let old := fields object in
    let instance :=
      mkComment (comment_post old) (comment_author old) f
                (comment_created_at old) in
    _ ←ᵥ modify (set_comments <[pk object := instance]>);;
    view_ret (HttpResponseRedirect index)).

Definition EditCommentView_super_dispatch (request : request CommentForm)
    (comment_id : Z) : view response :=
  LoginRequiredMixin_dispatch LOGIN_URL request
    (object ←ᵥ query (EditCommentView_get_object comment_id);;
     EditCommentView_handler request object).

Definition EditCommentView_dispatch (request : request CommentForm)
    (comment_id : Z) : view response :=
  object ←ᵥ query (EditCommentView_get_object comment_id);;
  if negb (author_eq (comment_author (fields object)) (user request))
  then view_raise PermissionDenied
  else EditCommentView_super_dispatch request comment_id.

(** *** [DeleteCommentView] *)

Definition DeleteCommentView_get_object (comment_id : Z) (db : DB)
    : result (Instance Comment) :=
  SingleObjectMixin_get_object (objects (comments db)) comment_id.

(** [get] of [DeleteView], and the [post] the view overrides with
    [self.delete]. *)
Definition DeleteCommentView_handler (request : request unit) (post_id : Z)
    (object : Instance Comment) : view response :=
  match method request with
  | GET => view_ret (TemplateResponse "blog/comment.html")
  | POST =>
      _ ←ᵥ delete_comment (pk object);;
      view_ret (HttpResponseRedirect (post_detail post_id))
  end.

Definition DeleteCommentView_super_dispatch (request : request unit)
    (post_id comment_id : Z) : view response :=
  LoginRequiredMixin_dispatch LOGIN_URL request
    (object ←ᵥ query (DeleteCommentView_get_object comment_id);;
     DeleteCommentView_handler request post_id object).

Definition DeleteCommentView_dispatch (request : request unit)
    (post_id comment_id : Z) : view response :=
  object ←ᵥ query (DeleteCommentView_get_object comment_id);;
  if negb (author_eq (comment_author (fields object)) (user request))
  then view_raise PermissionDenied
  else DeleteCommentView_super_dispatch request post_id comment_id.

End Views.

(** Modelled from the spec: the permission checker of section 4.2,
    [can_modify(entity, actor)], over the author of the entity. *)
Definition can_modify (entity_author : Z) (actor : request_user) : Prop :=
  is_authenticated actor = true ∧ actor = LoggedIn entity_author.

(** Modelled from the spec: the visibility filter of section 4.1,
    [is_visible(post, viewer)], with the category row of the post. *)
Definition is_visible (p : Post) (c : Category) (now : Z)
    (viewer : request_user) : Prop :=
  viewer = LoggedIn (author p)
  ∨ (is_published p = true ∧ category_is_published c = true ∧ pub_date p ≤ now).

#[local] Instance request_user_eq_dec : EqDecision request_user.
Proof. solve_decision. Defined.

#[local] Instance can_modify_dec a u : Decision (can_modify a u).
Proof. unfold can_modify. apply _. Defined.

#[local] Instance is_visible_dec p c now v : Decision (is_visible p c now v).
Proof. unfold is_visible. apply _. Defined.

(** ** Vocabulary of the statements *)

(** The stored post behind a row of a listing. *)
Definition stored (r : PostRow) : Z * Post := (post_pk r, post r).

(** Uniqueness constraints of the schema: no two users share a username, no
    two categories share a slug. *)
Definition unique_usernames (db : DB) : Prop :=
  NoDup ((λ o, username (fields o)) <$> objects (users db)).
Definition unique_slugs (db : DB) : Prop :=
  NoDup ((λ o, slug (fields o)) <$> objects (categories db)).

(** A listing is ordered by publication date, latest first, and every row
    carries the number of comments stored for its post. *)
Definition counted (db : DB) (r : PostRow) : Prop :=
  comment_count r
  = Some (size (filter (λ kc, comment_post kc.2 = post_pk r) (comments db))).

Definition sorted_and_counted (db : DB) (qs : list PostRow) : Prop :=
  StronglySorted pub_date_desc qs ∧ Forall (counted db) qs.

(** A handler sends every anonymous caller to a login page and writes
    nothing. *)
Definition sent_to_login {F} (handler : request F → view response) : Prop :=
  ∀ (request : request F) (db : DB),
    user request = AnonymousUser →
    ∃ u, respond (handler request) db = (HttpResponseRedirect (login u), db).

(** ** Pages and template contexts *)

(** [paginate_by = 10] of the three list views. *)
Definition paginate_by : Z := 10.

(** The [page] parameter as [MultipleObjectMixin.paginate_queryset] reads it:
    absent or empty, the text of an integer, the word [last], or any other
    text. *)
Inductive page_param :=
  | page_absent
  | page_number (n : Z)
  | page_last
  | page_other.

(** [Paginator.num_pages], with no orphans and an empty first page allowed,
    as the list views build their paginator. *)
Definition Paginator_num_pages {A} (object_list : list A) : Z :=
  let hits := Z.max 1 (Z.of_nat (length object_list)) in
  (hits + paginate_by - 1) / paginate_by.

(** [Paginator.page]; [None] is [EmptyPage].  The page is the slice
    [object_list[bottom:top]]. *)
Definition Paginator_page {A} (object_list : list A) (number : Z)
    : option (list A) :=
  if decide (number < 1) then None
  else if decide (Paginator_num_pages object_list < number) then None
  else
    let count := Z.of_nat (length object_list) in
    let bottom := (number - 1) * paginate_by in
    let top := if decide (count ≤ bottom + paginate_by) then count
               else bottom + paginate_by in
    Some (drop (Z.to_nat bottom) (take (Z.to_nat top) object_list)).

(** [paginate_queryset]: a page that cannot be read or does not exist is
    [Http404]. *)
Definition paginate_queryset {A} (queryset : list A) (page : page_param)
    : result (list A) :=
  page_number ←ᵣ match page with
                 | page_absent => Ok 1
                 | page_number n => Ok n
                 | page_last => Ok (Paginator_num_pages queryset)
                 | page_other => Raise Http404
                 end;;
  match Paginator_page queryset page_number with
  | Some object_list => Ok object_list
  | None => Raise Http404
  end.

(** The ten rows that follow the first [10 * (n - 1)] rows of a listing. *)
Definition page_rows {A} (l : list A) (n : Z) : list A :=
  take 10 (drop (Z.to_nat (10 * (n - 1))) l).

(** [ListView.get] of [PostListView]: the page of the feed that reaches the
    template. *)
Definition PostListView_get (now : Z) (page : page_param) (db : DB)
    : result (list PostRow) :=
  paginate_queryset (PostListView_get_queryset db now) page.

(** [ProfileView]: the page of the listing, and the [profile] that
    [get_context_data] adds. *)
Record ProfileContext := mkProfileContext {
  profile_page_obj : list PostRow;
  context_profile : Instance User
}.

Definition ProfileView_get (viewer : request_user) (name : string)
    (page : page_param) (db : DB) : result ProfileContext :=
  object_list ←ᵣ ProfileView_get_queryset viewer name db;;
  (* context = super().get_context_data, which paginates *)
  page_obj ←ᵣ paginate_queryset object_list page;;
  profile ←ᵣ get_object_or_404
               (filter (λ u, username (fields u) = name) (objects (users db)));;
  Ok (mkProfileContext page_obj profile).

(** [CategoryPostsView]: the page of the feed, and [self.category] as
    [get_queryset] fetched it. *)
Record CategoryContext := mkCategoryContext {
  category_page_obj : list PostRow;
  context_category : Instance Category
}.

Definition CategoryPostsView_get (now : Z) (category_slug : string)
    (page : page_param) (db : DB) : result CategoryContext :=
  object_list ←ᵣ CategoryPostsView_get_queryset now category_slug db;;
  page_obj ←ᵣ paginate_queryset object_list page;;
  self_category ←ᵣ CategoryPostsView_category category_slug db;;
  Ok (mkCategoryContext page_obj self_category).

(** [PostDetailView]: [DetailView.get] fetches the object, then
    [get_context_data] fetches it again and adds its comments, oldest first,
    beside an empty comment form. *)
Record DetailContext := mkDetailContext {
  context_object : Instance Post;
  context_comments : list (Instance Comment)
}.

Definition PostDetailView_get_context_data (viewer : request_user) (now : Z)
    (post_id : Z) (object : Instance Post) (db : DB) : result DetailContext :=
  post ←ᵣ PostDetailView_get_object viewer now post_id db;;
  let comments := PostDetailView_comments post db in
  Ok (mkDetailContext object comments).

Definition PostDetailView_get (viewer : request_user) (now : Z) (post_id : Z)
    (db : DB) : result DetailContext :=
  object ←ᵣ PostDetailView_get_object viewer now post_id db;;
  PostDetailView_get_context_data viewer now post_id object db.

(** A stored post that the public may see at time [now]. *)
Definition public_post (db : DB) (now : Z) (kp : Z * Post) : Prop :=
  is_published kp.2 = true
  ∧ pub_date kp.2 ≤ now
  ∧ category_is_published <$> (categories db !! category kp.2) = Some true.

#[local] Instance public_post_dec db now kp : Decision (public_post db now kp).
Proof. unfold public_post. apply _. Defined.

(** Running a handler down to the database it returns. *)
Ltac view_unfold :=
  unfold respond, view_bind, view_ret, view_raise, query, modify,
    LoginRequiredMixin_dispatch, ProcessFormView; simpl.

(** A small database used to run the definitions. *)
Module Sample.
Definition alice := mkUser "alice" "Alice" "A" "a@example.org".
Definition bob := mkUser "bob" "Bob" "B" "b@example.org".
Definition travel := mkCategory "Travel" "travel" true.
Definition drafts := mkCategory "Drafts" "drafts" false.
Definition p1 := mkPost "one" "first" 1 1 None 10 true 1.
Definition p2 := mkPost "two" "second" 1 1 None 30 true 2.
Definition p3 := mkPost "three" "third" 1 2 None 20 true 3.
Definition p4 := mkPost "four" "fourth" 2 1 None 99 true 4.
Definition p5 := mkPost "five" "fifth" 2 1 None 15 false 5.
Definition c1 := mkComment 1 2 "nice" 11.
Definition c2 := mkComment 1 1 "thanks" 12.
Definition c3 := mkComment 2 2 "again" 31.
Definition db : DB :=
    mkDB (<[1 := alice]> (<[2 := bob]> ∅))
         (<[1 := travel]> (<[2 := drafts]> ∅))
         (<[1 := p1]> (<[2 := p2]> (<[3 := p3]> (<[4 := p4]> (<[5 := p5]> ∅)))))
         (<[1 := c1]> (<[2 := c2]> (<[3 := c3]> ∅))).
Definition now : Z := 50.
End Sample.

Example PostListView_sample :
  PostListView_get_queryset Sample.db Sample.now =
    [mkPostRow 2 Sample.p2 (Some 1%nat); mkPostRow 1 Sample.p1 (Some 2%nat)].
Proof. vm_compute. reflexivity. Qed.

Example PostDetailView_sample_hidden :
  PostDetailView_get_object (LoggedIn 2) Sample.now 3 Sample.db = Raise Http404.
Proof. vm_compute. reflexivity. Qed.

Example PostDetailView_sample_author :
  PostDetailView_get_object (LoggedIn 1) Sample.now 3 Sample.db
  = Ok (mkInstance 3 Sample.p3).
Proof. vm_compute. reflexivity. Qed.

Example ProfileView_sample :
  ProfileView_get_queryset AnonymousUser "bob" Sample.db =
    Ok [mkPostRow 4 Sample.p4 (Some 0%nat); mkPostRow 5 Sample.p5 (Some 0%nat)].
Proof. vm_compute. reflexivity. Qed.

Example CategoryPostsView_sample :
  CategoryPostsView_get_queryset Sample.now "travel" Sample.db =
    Ok [mkPostRow 2 Sample.p2 (Some 1%nat); mkPostRow 1 Sample.p1 (Some 2%nat)].
Proof. vm_compute. reflexivity. Qed.

Example CategoryPostsView_sample_unpublished :
  CategoryPostsView_get_queryset Sample.now "drafts" Sample.db = Raise Http404.
Proof. vm_compute. reflexivity. Qed.

Example EditCommentView_sample_author :
  respond (EditCommentView_dispatch "/auth/login/"
             (mkRequest (LoggedIn 2) POST (Some "nicer")) 1) Sample.db
  = (HttpResponseRedirect index,
     set_comments <[1 := mkComment 1 2 "nicer" 11]> Sample.db).
Proof. vm_compute. reflexivity. Qed.

Example PostDeleteView_sample_author :
  respond (PostDeleteView_dispatch "/auth/login/"
             (mkRequest (LoggedIn 1) POST None) 1) Sample.db
  = (HttpResponseRedirect index,
     mkDB (users Sample.db) (categories Sample.db)
          (delete 1 (posts Sample.db)) (<[3 := Sample.c3]> ∅)).
Proof. vm_compute. reflexivity. Qed.

(** * Facts about querysets *)

Section queryset_facts.

Context {M : Type}.
Implicit Types (table : gmap Z M) (o : Instance M).

Lemma elem_of_objects table o :
  o ∈ objects table ↔ table !! pk o = Some (fields o).
Proof.
  unfold objects. rewrite list_elem_of_fmap. split.
  - intros ([k x] & -> & Hin). by apply elem_of_map_to_list in Hin.
  - intros Hlk. exists (pk o, fields o). split; [by destruct o|].
    by apply elem_of_map_to_list.
Qed.

Lemma NoDup_objects table : NoDup (objects table).
Proof.
  unfold objects. apply NoDup_fmap_2_strong; [|apply NoDup_map_to_list].
  intros [k x] [k' x'] _ _ Heq. by injection Heq as -> ->.
Qed.

(** A list without duplicates whose members all equal [a] and which holds
    [a] is [[a]]. *)
Lemma NoDup_all_eq {A} (l : list A) (a : A) :
  NoDup l → a ∈ l → (∀ y, y ∈ l → y = a) → l = [a].
Proof.
  intros Hnd Hin Hall. destruct l as [|y [|z l]].
  - by apply not_elem_of_nil in Hin.
  - f_equal. apply Hall. left.
  - exfalso. assert (y = a) as -> by (apply Hall; left).
    assert (z = a) as -> by (apply Hall; right; left).
    apply NoDup_cons in Hnd as [Hnot _]. apply Hnot. left.
Qed.

Lemma filter_objects_unique (P : Instance M → Prop) `{!∀ o, Decision (P o)}
    table k x :
  table !! k = Some x → P (mkInstance k x) →
  (∀ o, o ∈ objects table → P o → pk o = k) →
  filter P (objects table) = [mkInstance k x].
Proof.
  intros Hlk HP Huniq. apply NoDup_all_eq.
  - apply NoDup_filter, NoDup_objects.
  - apply list_elem_of_filter. split; [done|]. by apply elem_of_objects.
  - intros [k' x'] [HP' Hin]%list_elem_of_filter.
    pose proof (Huniq _ Hin HP') as Hk. simpl in Hk. subst k'.
    apply elem_of_objects in Hin. simpl in Hin. congruence.
Qed.

Lemma filter_objects_none (P : Instance M → Prop) `{!∀ o, Decision (P o)} table :
  (∀ o, o ∈ objects table → ¬ P o) → filter P (objects table) = [].
Proof.
  intros Hnone. destruct (filter P (objects table)) as [|o l] eqn:Heq; [done|].
  assert (o ∈ filter P (objects table)) as [HP Hin]%list_elem_of_filter
    by (rewrite Heq; left).
  by destruct (Hnone o Hin).
Qed.

(** Fetching by primary key finds the row of the table, or raises [Http404]. *)
Lemma get_object_or_404_pk table k :
  get_object_or_404 (filter (λ o, pk o = k) (objects table))
  = match table !! k with
    | Some x => Ok (mkInstance k x)
    | None => Raise Http404
    end.
Proof.
  destruct (table !! k) as [x|] eqn:Hlk.
  - rewrite (filter_objects_unique _ table k x); auto.
  - rewrite filter_objects_none; [done|].
    intros o Hin%elem_of_objects Hk. congruence.
Qed.

(** The members of a queryset that [get] accepts. *)
Lemma get_object_or_404_Ok {A} (qs : list A) (a : A) :
  get_object_or_404 qs = Ok a → qs = [a].
Proof.
  unfold get_object_or_404, get. destruct qs as [|x [|y l]]; intros; by simplify_eq.
Qed.

End queryset_facts.

(** * Visibility and permissions *)

Lemma author_eq_true a u : author_eq a u = true ↔ u = LoggedIn a.
Proof.
  destruct u as [|i]; simpl; [naive_solver|].
  rewrite bool_decide_eq_true. naive_solver.
Qed.

Lemma author_eq_false a u : author_eq a u = false ↔ u ≠ LoggedIn a.
Proof. rewrite <-author_eq_true. by destruct (author_eq a u). Qed.

(** The check of [PostUpdateView.test_func] and the bare comparison of the
    comment views agree with the permission checker. *)
Lemma can_modify_author_eq a u : can_modify a u ↔ author_eq a u = true.
Proof.
  rewrite author_eq_true. unfold can_modify.
  split; [by intros [_ ?] | by intros ->].
Qed.

(** C1.  For a stored post [P] with its category row and any viewer [V]
    (signed in or anonymous), the detail view returns [P] exactly when [V] is
    the author of [P], or [P] is published, its category is published and its
    publication date is not in the future; otherwise it raises [Http404]. *)
Theorem PostDetailView_get_object_visible
    (db : DB) (now post_id : Z) (P : Post) (c : Category) (V : request_user) :
  posts db !! post_id = Some P →
  categories db !! category P = Some c →
  PostDetailView_get_object V now post_id db
  = if decide (is_visible P c now V) then Ok (mkInstance post_id P)
    else Raise Http404.
Proof.
  intros HP Hc. unfold PostDetailView_get_object.
  rewrite get_object_or_404_pk, HP. simpl.
  unfold related. rewrite Hc. simpl.
  destruct (decide (is_visible P c now V)) as [Hv|Hv]; unfold is_visible in Hv.
  - destruct (author_eq (author P) V) eqn:Hau; [done|].
    apply author_eq_false in Hau.
    destruct Hv as [?|(-> & -> & Hle)]; [done|].
    simpl. by rewrite bool_decide_eq_true_2.
  - destruct (author_eq (author P) V) eqn:Hau.
    { apply author_eq_true in Hau. naive_solver. }
    destruct (is_published P); [|done].
    destruct (category_is_published c); [|done]. simpl.
    case_bool_decide; naive_solver.
Qed.

Lemma PostDetailView_get_object_visible_witness :
  PostDetailView_get_object AnonymousUser Sample.now 3 Sample.db
  = if decide (is_visible Sample.p3 Sample.drafts Sample.now AnonymousUser)
    then Ok (mkInstance 3 Sample.p3) else Raise Http404.
Proof.
  apply (PostDetailView_get_object_visible Sample.db Sample.now 3
           Sample.p3 Sample.drafts AnonymousUser); reflexivity.
Defined.

Section permissions.

Variable LOGIN_URL : string.

Implicit Types (db : DB) (P : Post) (C : Comment) (A B : request_user).

Lemma PostUpdateView_get_object_stored db post_id P :
  posts db !! post_id = Some P →
  PostUpdateView_get_object post_id db = Ok (mkInstance post_id P).
Proof.
  intros HP. unfold PostUpdateView_get_object, SingleObjectMixin_get_object.
  by rewrite get_object_or_404_pk, HP.
Qed.

Lemma PostUpdateView_test_func_stored db post_id P (request : request PostForm) :
  posts db !! post_id = Some P →
  PostUpdateView_test_func request post_id db
  = Ok (bool_decide (can_modify (author P) (user request))).
Proof.
  intros HP. unfold PostUpdateView_test_func.
  rewrite (PostUpdateView_get_object_stored db post_id P HP). simpl. f_equal.
  destruct (user request) as [|i]; simpl; [done|].
  apply bool_decide_ext. unfold can_modify. simpl.
  split; [by intros <- | by intros [_ [= ->]]].
Qed.

Lemma PostUpdateView_dispatch_stored db post_id P (request : request PostForm) :
  posts db !! post_id = Some P →
  PostUpdateView_dispatch request post_id db
  = (if decide (can_modify (author P) (user request))
     then PostUpdateView_handler request (mkInstance post_id P) db
     else (Ok (HttpResponseRedirect (post_detail post_id)), db)).
Proof.
  intros HP. unfold PostUpdateView_dispatch, view_bind, query.
  rewrite (PostUpdateView_test_func_stored db post_id P request HP).
  case_bool_decide; case_decide; try done. simpl.
  unfold PostUpdateView_super_dispatch, view_bind, query.
  by rewrite (PostUpdateView_get_object_stored db post_id P HP).
Qed.

Lemma PostDeleteView_dispatch_stored db post_id P (request : request unit) :
  posts db !! post_id = Some P →
  PostDeleteView_dispatch LOGIN_URL request post_id db
  = (if decide (can_modify (author P) (user request))
     then PostDeleteView_handler request (mkInstance post_id P) db
     else if is_authenticated (user request) then (Raise Http404, db)
     else (Ok (HttpResponseRedirect (login LOGIN_URL)), db)).
Proof.
  intros HP. unfold PostDeleteView_dispatch, LoginRequiredMixin_dispatch.
  unfold PostDeleteView_super_dispatch, view_bind, query,
    PostDeleteView_get_object, PostDeleteView_get_queryset,
    SingleObjectMixin_get_object.
  destruct (user request) as [|i]; simpl; [done|].
  rewrite list_filter_filter.
  case_decide as Hcm.
  - destruct Hcm as [_ [= ->]].
    rewrite (filter_objects_unique _ (posts db) post_id P);
      [done | done | done | by intros o _ [? _]].
  - rewrite filter_objects_none; [done|].
    intros [k x] Hin%elem_of_objects [Hk Ha]. simpl in *. subst k.
    apply Hcm. split; [done|]. congruence.
Qed.

Lemma EditCommentView_dispatch_stored db comment_id C
    (request : request CommentForm) :
  comments db !! comment_id = Some C →
  EditCommentView_dispatch LOGIN_URL request comment_id db
  = (if decide (can_modify (comment_author C) (user request))
     then EditCommentView_handler request (mkInstance comment_id C) db
     else (Raise PermissionDenied, db)).
Proof.
  intros HC.
  unfold EditCommentView_dispatch, EditCommentView_super_dispatch,
    EditCommentView_get_object, view_bind, query.
  rewrite get_object_or_404_pk, HC. simpl.
  destruct (author_eq (comment_author C) (user request)) eqn:Hau; simpl.
  - rewrite decide_True by (by apply can_modify_author_eq).
    apply author_eq_true in Hau. unfold LoginRequiredMixin_dispatch.
    rewrite Hau. simpl. by rewrite get_object_or_404_pk, HC.
  - rewrite decide_False; [done|]. rewrite can_modify_author_eq. congruence.
Qed.

Lemma DeleteCommentView_dispatch_stored db post_id comment_id C
    (request : request unit) :
  comments db !! comment_id = Some C →
  DeleteCommentView_dispatch LOGIN_URL request post_id comment_id db
  = (if decide (can_modify (comment_author C) (user request))
     then DeleteCommentView_handler request post_id (mkInstance comment_id C) db
     else (Raise PermissionDenied, db)).
Proof.
  intros HC.
  unfold DeleteCommentView_dispatch, DeleteCommentView_super_dispatch,
    DeleteCommentView_get_object, SingleObjectMixin_get_object, view_bind,
    query.
  rewrite get_object_or_404_pk, HC. simpl.
  destruct (author_eq (comment_author C) (user request)) eqn:Hau; simpl.
  - rewrite decide_True by (by apply can_modify_author_eq).
    apply author_eq_true in Hau. unfold LoginRequiredMixin_dispatch.
    rewrite Hau. simpl. by rewrite get_object_or_404_pk, HC.
  - rewrite decide_False; [done|]. rewrite can_modify_author_eq. congruence.
Qed.

Lemma not_author_cannot_modify a B : B ≠ LoggedIn a → ¬ can_modify a B.
Proof. by intros Hne [_ ?]. Qed.

(** C2.  For a stored post [P], a stored comment [C] and any actor [A], each
    check that guards a modification lets [A] through exactly when [A] is
    signed in and is the author of the entity.  [test_func] returns that truth
    value; editing and deleting [P], and editing and deleting [C], run the
    update or the deletion on the entity when the condition holds and turn the
    actor away, with nothing written, when it does not. *)
Theorem permission_check_can_modify
    db (post_id comment_id : Z) P C A (m : http_method)
    (pf : option PostForm) (cf : option CommentForm) :
  posts db !! post_id = Some P →
  comments db !! comment_id = Some C →
  PostUpdateView_test_func (mkRequest A m pf) post_id db
    = Ok (bool_decide (can_modify (author P) A))
  ∧ PostUpdateView_dispatch (mkRequest A m pf) post_id db
    = (if decide (can_modify (author P) A)
       then PostUpdateView_handler (mkRequest A m pf) (mkInstance post_id P) db
       else (Ok (HttpResponseRedirect (post_detail post_id)), db))
  ∧ PostDeleteView_dispatch LOGIN_URL (mkRequest A m None) post_id db
    = (if decide (can_modify (author P) A)
       then PostDeleteView_handler (mkRequest A m None) (mkInstance post_id P) db
       else if is_authenticated A then (Raise Http404, db)
       else (Ok (HttpResponseRedirect (login LOGIN_URL)), db))
  ∧ EditCommentView_dispatch LOGIN_URL (mkRequest A m cf) comment_id db
    = (if decide (can_modify (comment_author C) A)
       then EditCommentView_handler (mkRequest A m cf)
              (mkInstance comment_id C) db
       else (Raise PermissionDenied, db))
  ∧ DeleteCommentView_dispatch LOGIN_URL (mkRequest A m None) post_id
      comment_id db
    = (if decide (can_modify (comment_author C) A)
       then DeleteCommentView_handler (mkRequest A m None) post_id
              (mkInstance comment_id C) db
       else (Raise PermissionDenied, db)).
Proof.
  intros HP HC. repeat split.
  - by apply (PostUpdateView_test_func_stored db post_id P (mkRequest A m pf)).
  - by apply (PostUpdateView_dispatch_stored db post_id P (mkRequest A m pf)).
  - by apply (PostDeleteView_dispatch_stored db post_id P (mkRequest A m None)).
  - by apply (EditCommentView_dispatch_stored db comment_id C (mkRequest A m cf)).
  - by apply (DeleteCommentView_dispatch_stored db post_id comment_id C
                (mkRequest A m None)).
Qed.

(** C4.  For a stored post [P] and any actor [B] other than its author,
    signed in or not, an attempt to edit [P], whatever the method and the
    form, is answered with a redirect to the detail page of [P], and the
    database is left as it was. *)
Theorem PostUpdateView_non_author_redirected
    db (post_id : Z) P B (m : http_method) (pf : option PostForm) :
  posts db !! post_id = Some P →
  B ≠ LoggedIn (author P) →
  respond (PostUpdateView_dispatch (mkRequest B m pf) post_id) db
  = (HttpResponseRedirect (post_detail post_id), db).
Proof.
  intros HP HB. unfold respond.
  rewrite (PostUpdateView_dispatch_stored db post_id P _ HP). simpl.
  by rewrite decide_False by (by apply not_author_cannot_modify).
Qed.

(** C5.  For a stored comment [C] and any actor [B] other than its author,
    both the attempt to edit [C] and the attempt to delete [C] raise
    [PermissionDenied], which reaches the caller as a forbidden response, and
    the database is left as it was. *)
Theorem comment_non_author_forbidden
    db (post_id comment_id : Z) C B (m : http_method)
    (cf : option CommentForm) :
  comments db !! comment_id = Some C →
  B ≠ LoggedIn (comment_author C) →
  respond (EditCommentView_dispatch LOGIN_URL (mkRequest B m cf) comment_id) db
    = (HttpResponseForbidden, db)
  ∧ respond (DeleteCommentView_dispatch LOGIN_URL (mkRequest B m None)
               post_id comment_id) db
    = (HttpResponseForbidden, db).
Proof.
  intros HC HB. unfold respond.
  rewrite (EditCommentView_dispatch_stored db comment_id C _ HC).
  rewrite (DeleteCommentView_dispatch_stored db post_id comment_id C _ HC).
  simpl. by rewrite !decide_False by (by apply not_author_cannot_modify).
Qed.

(** C6, as the code has it.  An anonymous caller of the handlers that create
    a post, delete a post, add a comment or edit the profile is redirected to
    the login page and nothing is written.  An anonymous attempt to edit a
    post is redirected to the detail page of that post when the post is
    stored, and is answered not-found otherwise; nothing is written.  An
    anonymous attempt to edit or to delete a comment writes nothing. *)
Theorem anonymous_caller_outcomes
    db (now post_id comment_id : Z) (m : http_method)
    (pf : option PostForm) (cf : option CommentForm)
    (uf : option UserProfileForm) (df : option unit) :
  respond (PostCreateView_dispatch now (mkRequest AnonymousUser m pf)) db
    = (HttpResponseRedirect (login "/login/"), db)
  ∧ respond (PostDeleteView_dispatch LOGIN_URL (mkRequest AnonymousUser m df)
               post_id) db
    = (HttpResponseRedirect (login LOGIN_URL), db)
  ∧ respond (AddCommentView_dispatch LOGIN_URL now
               (mkRequest AnonymousUser m cf) post_id) db
    = (HttpResponseRedirect (login LOGIN_URL), db)
  ∧ respond (EditProfileView_dispatch LOGIN_URL (mkRequest AnonymousUser m uf)) db
    = (HttpResponseRedirect (login LOGIN_URL), db)
  ∧ respond (PostUpdateView_dispatch (mkRequest AnonymousUser m pf) post_id) db
    = (match posts db !! post_id with
       | Some _ => HttpResponseRedirect (post_detail post_id)
       | None => HttpResponseNotFound
       end, db)
  ∧ (respond (EditCommentView_dispatch LOGIN_URL (mkRequest AnonymousUser m cf)
                comment_id) db).2 = db
  ∧ (respond (DeleteCommentView_dispatch LOGIN_URL
                (mkRequest AnonymousUser m df) post_id comment_id) db).2 = db.
Proof.
  repeat split.
  - unfold respond, PostUpdateView_dispatch, PostUpdateView_test_func,
      PostUpdateView_get_object, SingleObjectMixin_get_object, view_bind, query.
    rewrite get_object_or_404_pk. by destruct (posts db !! post_id).
  - unfold respond, EditCommentView_dispatch, EditCommentView_get_object,
      view_bind, query.
    rewrite get_object_or_404_pk. by destruct (comments db !! comment_id).
  - unfold respond, DeleteCommentView_dispatch, DeleteCommentView_get_object,
      SingleObjectMixin_get_object, view_bind, query.
    rewrite get_object_or_404_pk. by destruct (comments db !! comment_id).
Qed.

End permissions.

(** * Listings *)

Section listing_facts.

Implicit Types (db : DB) (qs : list PostRow) (r : PostRow).

Lemma Post_objects_stored db : stored <$> Post_objects db = map_to_list (posts db).
Proof.
  unfold Post_objects. generalize (map_to_list (posts db)). intros l.
  induction l as [|[k x] l IH]; [done|]. csimpl. by rewrite IH.
Qed.

Lemma annotate_stored db qs : stored <$> annotate_comment_count db qs = stored <$> qs.
Proof.
  unfold annotate_comment_count. rewrite <-list_fmap_compose.
  by apply list_fmap_ext.
Qed.

Lemma order_by_Permutation qs : order_by_pub_date_desc qs ≡ₚ qs.
Proof. apply merge_sort_Permutation. Qed.

Lemma filter_stored (Q : Z * Post → Prop) (Q' : PostRow → Prop)
    `{!∀ x, Decision (Q x), !∀ r, Decision (Q' r)} qs :
  (∀ r, Q' r ↔ Q (stored r)) →
  stored <$> filter Q' qs = filter Q (stored <$> qs).
Proof.
  intros HQ. induction qs as [|r qs IH]; [done|]. csimpl.
  rewrite !filter_cons. pose proof (HQ r).
  repeat case_decide; csimpl; rewrite ?IH; tauto.
Qed.

Lemma map_to_list_filter {A} (Q : Z * A → Prop) `{!∀ x, Decision (Q x)}
    (m : gmap Z A) :
  filter Q (map_to_list m) ≡ₚ map_to_list (filter Q m).
Proof.
  apply NoDup_Permutation.
  - apply NoDup_filter, NoDup_map_to_list.
  - apply NoDup_map_to_list.
  - intros [k x].
    rewrite list_elem_of_filter, !elem_of_map_to_list, map_lookup_filter_Some.
    tauto.
Qed.

(** What [Count('comments')] counts. *)
Lemma Count_comments_size db post_id :
  Count_comments db post_id
  = size (filter (λ kc, comment_post kc.2 = post_id) (comments db)).
Proof.
  unfold Count_comments, objects.
  rewrite <-length_map_to_list, <-(map_to_list_filter _ (comments db)).
  generalize (map_to_list (comments db)). intros l.
  induction l as [|[k c] l IH]; [done|]. csimpl.
  rewrite !filter_cons. simpl. case_decide; simpl; by rewrite IH.
Qed.

Lemma filter_all {A} (Q : A → Prop) `{!∀ x, Decision (Q x)} (l : list A) :
  Forall Q l → filter Q l = l.
Proof.
  induction 1 as [|x l Hx _ IH]; [done|].
  by rewrite filter_cons, decide_True, IH.
Qed.

Lemma StronglySorted_filter {A} (R : relation A) (Q : A → Prop)
    `{!∀ x, Decision (Q x)} (l : list A) :
  StronglySorted R l → StronglySorted R (filter Q l).
Proof.
  induction 1 as [|x l _ IH Hall]; [constructor|].
  rewrite filter_cons. case_decide; [|done].
  constructor; [done|].
  rewrite Forall_forall in Hall |- *.
  intros y [_ Hy]%list_elem_of_filter. by apply Hall.
Qed.

#[local] Instance pub_date_desc_trans : Transitive pub_date_desc.
Proof. unfold pub_date_desc. intros a b c ??. lia. Qed.

#[local] Instance pub_date_desc_total : Total pub_date_desc.
Proof. unfold pub_date_desc. intros a b. lia. Qed.

Lemma order_by_sorted qs : StronglySorted pub_date_desc (order_by_pub_date_desc qs).
Proof. apply (StronglySorted_merge_sort _). Qed.

Lemma annotate_sorted db qs :
  StronglySorted pub_date_desc qs →
  StronglySorted pub_date_desc (annotate_comment_count db qs).
Proof. apply StronglySorted_fmap. by intros a b. Qed.

Lemma annotate_counted db qs : Forall (counted db) (annotate_comment_count db qs).
Proof.
  unfold annotate_comment_count. apply Forall_fmap, Forall_forall.
  intros r _. unfold counted. simpl. by rewrite Count_comments_size.
Qed.

Lemma order_by_Forall (Q : PostRow → Prop) qs :
  Forall Q qs → Forall Q (order_by_pub_date_desc qs).
Proof. intros HQ. by rewrite order_by_Permutation. Qed.

Lemma filter_Forall {A} (Q Q' : A → Prop) `{!∀ x, Decision (Q' x)} (l : list A) :
  Forall Q l → Forall Q (filter Q' l).
Proof.
  rewrite !Forall_forall. intros HQ x [_ Hx]%list_elem_of_filter. by apply HQ.
Qed.

Lemma annotate_Forall (Q : Z * Post → Prop) db qs :
  Forall (λ r, Q (stored r)) qs →
  Forall (λ r, Q (stored r)) (annotate_comment_count db qs).
Proof.
  intros HQ. unfold annotate_comment_count. apply Forall_fmap.
  eapply Forall_impl; [exact HQ|]. by intros r.
Qed.

(** Rows of distinct keys are told apart by any function that is unique on
    the table. *)
Lemma NoDup_fmap_eq {A B} (f : A → B) (l : list A) (x y : A) :
  NoDup (f <$> l) → x ∈ l → y ∈ l → f x = f y → x = y.
Proof.
  induction l as [|a l IH]; csimpl; intros Hnd Hx Hy Hf.
  - by apply not_elem_of_nil in Hx.
  - apply NoDup_cons in Hnd as [Hna Hnd].
    apply elem_of_cons in Hx as [->|Hx]; apply elem_of_cons in Hy as [->|Hy].
    + done.
    + destruct Hna. rewrite Hf. by apply list_elem_of_fmap_2.
    + destruct Hna. rewrite <-Hf. by apply list_elem_of_fmap_2.
    + by apply IH.
Qed.

End listing_facts.

(** C3.  Whatever the database holds, every row of the global feed is a
    stored post that is published, whose category exists and is published,
    and whose publication date is not in the future. *)
Theorem global_feed_only_public (db : DB) (now : Z) :
  Forall (λ r, posts db !! post_pk r = Some (post r)
               ∧ is_published (post r) = true
               ∧ (∃ c, categories db !! category (post r) = Some c
                       ∧ category_is_published c = true)
               ∧ pub_date (post r) ≤ now)
         (PostListView_get_queryset db now).
Proof.
  unfold PostListView_get_queryset.
  apply (annotate_Forall
           (λ kp, posts db !! kp.1 = Some kp.2
                  ∧ is_published kp.2 = true
                  ∧ (∃ c, categories db !! category kp.2 = Some c
                          ∧ category_is_published c = true)
                  ∧ pub_date kp.2 ≤ now)).
  apply order_by_Forall, Forall_forall.
  intros r [(Hpub & Hdate & Hcat) Hin]%list_elem_of_filter. simpl.
  split; [|split; [done|split; [|done]]].
  - apply (list_elem_of_fmap_2 stored) in Hin.
    rewrite Post_objects_stored in Hin. by apply elem_of_map_to_list in Hin.
  - unfold category__is_published in Hcat.
    destruct (categories db !! category (post r)) as [c|]; [|done].
    exists c. split; [done|]. by injection Hcat.
Qed.

(** C7.  When usernames are unique and [U] is a stored user, the profile
    listing of [U] is produced for every viewer, the owner, another user or
    an anonymous visitor alike, and its rows are exactly the stored posts
    whose author is [U], each once: unpublished posts, posts in unpublished
    categories and posts dated in the future are among them. *)
Theorem profile_lists_every_post_of_user
    (db : DB) (viewer : request_user) (user_id : Z) (U : User) :
  unique_usernames db →
  users db !! user_id = Some U →
  ∃ qs, ProfileView_get_queryset viewer (username U) db = Ok qs
        ∧ stored <$> qs
          ≡ₚ map_to_list (filter (λ kp, author kp.2 = user_id) (posts db))
        ∧ ∀ k p, posts db !! k = Some p → author p = user_id →
                 (k, p) ∈ stored <$> qs.
Proof.
  intros Huniq HU. unfold ProfileView_get_queryset.
  rewrite (filter_objects_unique _ (users db) user_id U); [|done|done|].
  2:{ intros o Hin Hname.
      assert (o = mkInstance user_id U) as ->; [|done].
      apply (NoDup_fmap_eq (λ o, username (fields o)) (objects (users db)));
        [done|done| |done].
      by apply elem_of_objects. }
  simpl. eexists. split; [done|].
  assert (Hperm :
    stored <$> order_by_pub_date_desc
      (annotate_comment_count db
         (filter (λ r, author (post r) = user_id) (Post_objects db)))
    ≡ₚ map_to_list (filter (λ kp, author kp.2 = user_id) (posts db))).
  { rewrite order_by_Permutation, annotate_stored.
    rewrite (filter_stored (λ kp, author kp.2 = user_id)
               (λ r, author (post r) = user_id)) by done.
    by rewrite Post_objects_stored, map_to_list_filter. }
  split; [exact Hperm|].
  intros k p Hk Ha. rewrite Hperm. apply elem_of_map_to_list.
  by apply map_lookup_filter_Some.
Qed.

(** C8.  With unique slugs, the category feed raises [Http404] when no
    published category carries the slug, that is when no category has it or
    the one that has it is unpublished; and for the published category with
    that slug it produces exactly the stored posts of that category that are
    published and not dated in the future, each once. *)
Theorem category_feed_contents (db : DB) (now : Z) (category_slug : string) :
  unique_slugs db →
  ((∀ k c, categories db !! k = Some c → slug c = category_slug →
           category_is_published c = false) →
   CategoryPostsView_get_queryset now category_slug db = Raise Http404)
  ∧ (∀ k c, categories db !! k = Some c → slug c = category_slug →
            category_is_published c = true →
            ∃ qs, CategoryPostsView_get_queryset now category_slug db = Ok qs
                  ∧ stored <$> qs
                    ≡ₚ map_to_list
                         (filter (λ kp, category kp.2 = k
                                        ∧ is_published kp.2 = true
                                        ∧ pub_date kp.2 ≤ now)
                                 (posts db))).
Proof.
  intros Huniq. unfold CategoryPostsView_get_queryset, CategoryPostsView_category.
  split.
  - intros Hnone. rewrite filter_objects_none; [done|].
    intros [k c] Hin%elem_of_objects [Hs Hp]. simpl in *.
    rewrite (Hnone k c Hin Hs) in Hp. done.
  - intros k c Hk Hs Hp.
    rewrite (filter_objects_unique _ (categories db) k c); [|done|done|].
    2:{ intros o Hin [Hslug _].
        assert (o = mkInstance k c) as ->; [|done].
        apply (NoDup_fmap_eq (λ o, slug (fields o)) (objects (categories db)));
          [done|done| |by rewrite Hslug].
        by apply elem_of_objects. }
    simpl. eexists. split; [done|].
    rewrite filter_all.
    + rewrite annotate_stored, order_by_Permutation.
      rewrite (filter_stored (λ kp, category kp.2 = k
                                    ∧ is_published kp.2 = true
                                    ∧ pub_date kp.2 ≤ now)
                 (λ r, is_published (post r) = true
                       ∧ pub_date (post r) ≤ now
                       ∧ category (post r) = k))
        by (intros r; simpl; tauto).
      by rewrite Post_objects_stored, map_to_list_filter.
    + apply (annotate_Forall
               (λ kp, category_is_published <$> (categories db !! category kp.2)
                      = Some true)).
      apply order_by_Forall, Forall_forall.
      intros r [(_ & _ & Hc) _]%list_elem_of_filter. simpl.
      by rewrite Hc, Hk, <-Hp.
Qed.

(** C9.  Each of the three listings, the global feed and, whenever they are
    produced, the profile listing and the category feed, is ordered by
    publication date with the latest post first, and every row carries as
    [comment_count] the number of stored comments that point to its post. *)
Theorem listings_sorted_and_counted
    (db : DB) (now : Z) (viewer : request_user) (name category_slug : string) :
  sorted_and_counted db (PostListView_get_queryset db now)
  ∧ (∀ qs, ProfileView_get_queryset viewer name db = Ok qs →
           sorted_and_counted db qs)
  ∧ (∀ qs, CategoryPostsView_get_queryset now category_slug db = Ok qs →
           sorted_and_counted db qs).
Proof.
  unfold sorted_and_counted. split; [|split].
  - unfold PostListView_get_queryset. split.
    + apply annotate_sorted, order_by_sorted.
    + apply annotate_counted.
  - intros qs. unfold ProfileView_get_queryset.
    destruct (get_object_or_404 _) as [profile|e]; simpl; [|done].
    intros [= <-]. split.
    + apply order_by_sorted.
    + apply order_by_Forall, annotate_counted.
  - intros qs. unfold CategoryPostsView_get_queryset.
    destruct (CategoryPostsView_category _ _) as [c|e]; simpl; [|done].
    intros [= <-]. split.
    + apply StronglySorted_filter, annotate_sorted, order_by_sorted.
    + apply filter_Forall, annotate_counted.
Qed.

(** C10.  For every database, time and slug, the category feed of the source,
    which filters on the publication of the category a second time after
    fetching a published category, equals the feed that checks it once: the
    same rows in the same order, and the same exception when no published
    category has the slug. *)
Theorem category_feed_second_filter_noop
    (db : DB) (now : Z) (category_slug : string) :
  CategoryPostsView_get_queryset now category_slug db
  = category_feed_filtered_once now category_slug db.
Proof.
  unfold CategoryPostsView_get_queryset, category_feed_filtered_once.
  destruct (CategoryPostsView_category category_slug db) as [c|e] eqn:Hget;
    simpl; [|done].
  f_equal. apply filter_all.
  apply get_object_or_404_Ok in Hget.
  assert (c ∈ [c]) as Hin by left. rewrite <-Hget in Hin.
  apply list_elem_of_filter in Hin as [[_ Hp] Hin%elem_of_objects].
  apply (annotate_Forall
           (λ kp, category_is_published <$> (categories db !! category kp.2)
                  = Some true)).
  apply order_by_Forall, Forall_forall.
  intros r [(_ & _ & Hc) _]%list_elem_of_filter. simpl.
  by rewrite Hc, Hin, <-Hp.
Qed.

Lemma permission_check_can_modify_witness :
  PostUpdateView_test_func (mkRequest (LoggedIn 2) POST None) 1 Sample.db
    = Ok false
  ∧ EditCommentView_dispatch "/auth/login/"
      (mkRequest (LoggedIn 2) POST (Some "nicer")) 1 Sample.db
    = EditCommentView_handler (mkRequest (LoggedIn 2) POST (Some "nicer"))
        (mkInstance 1 Sample.c1) Sample.db.
Proof.
  pose proof (permission_check_can_modify "/auth/login/" Sample.db 1 1
                Sample.p1 Sample.c1 (LoggedIn 2) POST None (Some "nicer")
                eq_refl eq_refl) as (Htest & _ & _ & Hedit & _).
  split; [exact Htest | exact Hedit].
Defined.

Lemma PostUpdateView_non_author_redirected_witness :
  respond (PostUpdateView_dispatch
             (mkRequest (LoggedIn 2) POST
                (Some (mkPostForm "mine" "now" 1 None 1 true))) 1) Sample.db
  = (HttpResponseRedirect (post_detail 1), Sample.db).
Proof.
  apply (PostUpdateView_non_author_redirected Sample.db 1 Sample.p1
           (LoggedIn 2)); [reflexivity | discriminate].
Defined.

Lemma comment_non_author_forbidden_witness :
  respond (EditCommentView_dispatch "/auth/login/"
             (mkRequest (LoggedIn 1) POST (Some "edited")) 1) Sample.db
    = (HttpResponseForbidden, Sample.db)
  ∧ respond (DeleteCommentView_dispatch "/auth/login/"
               (mkRequest (LoggedIn 1) POST None) 1 1) Sample.db
    = (HttpResponseForbidden, Sample.db).
Proof.
  apply (comment_non_author_forbidden "/auth/login/" Sample.db 1 1 Sample.c1
           (LoggedIn 1)); [reflexivity | discriminate].
Defined.

(** C6 as stated does not hold: an anonymous caller who asks to edit or to
    delete a stored comment is answered forbidden, and one who asks to edit a
    stored post is sent to the page of the post, none of them to a login
    page. *)
Lemma anonymous_not_always_sent_to_login :
  respond (EditCommentView_dispatch "/auth/login/"
             (mkRequest AnonymousUser GET None) 1) Sample.db
    = (HttpResponseForbidden, Sample.db)
  ∧ ¬ sent_to_login (λ request, EditCommentView_dispatch "/auth/login/" request 1)
  ∧ ¬ sent_to_login
        (λ request, DeleteCommentView_dispatch "/auth/login/" request 1 1)
  ∧ ¬ sent_to_login (λ request, PostUpdateView_dispatch request 1).
Proof.
  split; [reflexivity|]. split; [|split].
  - intros Hall.
    destruct (Hall (mkRequest AnonymousUser GET None) Sample.db eq_refl)
      as [u Hu].
    vm_compute in Hu. discriminate Hu.
  - intros Hall.
    destruct (Hall (mkRequest AnonymousUser GET None) Sample.db eq_refl)
      as [u Hu].
    vm_compute in Hu. discriminate Hu.
  - intros Hall.
    destruct (Hall (mkRequest AnonymousUser GET None) Sample.db eq_refl)
      as [u Hu].
    vm_compute in Hu. discriminate Hu.
Qed.

Lemma unique_usernames_sample : unique_usernames Sample.db.
Proof. by apply (bool_decide_unpack _). Defined.

Lemma unique_slugs_sample : unique_slugs Sample.db.
Proof. by apply (bool_decide_unpack _). Defined.

Lemma profile_lists_every_post_of_user_witness :
  ∃ qs, ProfileView_get_queryset AnonymousUser "bob" Sample.db = Ok qs
        ∧ stored <$> qs
          ≡ₚ map_to_list (filter (λ kp, author kp.2 = 2) (posts Sample.db))
        ∧ ∀ k p, posts Sample.db !! k = Some p → author p = 2 →
                 (k, p) ∈ stored <$> qs.
Proof.
  apply (profile_lists_every_post_of_user Sample.db AnonymousUser 2 Sample.bob);
    [exact unique_usernames_sample | reflexivity].
Defined.

Lemma category_feed_contents_witness :
  ∃ qs, CategoryPostsView_get_queryset Sample.now "travel" Sample.db = Ok qs
        ∧ stored <$> qs
          ≡ₚ map_to_list
               (filter (λ kp, category kp.2 = 1
                              ∧ is_published kp.2 = true
                              ∧ pub_date kp.2 ≤ Sample.now)
                       (posts Sample.db)).
Proof.
  apply (proj2 (category_feed_contents Sample.db Sample.now "travel"
                  unique_slugs_sample) 1 Sample.travel); reflexivity.
Defined.

Lemma listings_sorted_and_counted_witness :
  sorted_and_counted Sample.db (PostListView_get_queryset Sample.db Sample.now)
  ∧ sorted_and_counted Sample.db
      [mkPostRow 4 Sample.p4 (Some 0%nat); mkPostRow 5 Sample.p5 (Some 0%nat)]
  ∧ sorted_and_counted Sample.db
      [mkPostRow 2 Sample.p2 (Some 1%nat); mkPostRow 1 Sample.p1 (Some 2%nat)].
Proof.
  destruct (listings_sorted_and_counted Sample.db Sample.now AnonymousUser
              "bob" "travel") as (Hfeed & Hprofile & Hcategory).
  split; [exact Hfeed|].
  split; [apply Hprofile | apply Hcategory]; reflexivity.
Defined.

Example PostListView_get_sample :
  PostListView_get Sample.now page_last Sample.db
  = Ok [mkPostRow 2 Sample.p2 (Some 1%nat); mkPostRow 1 Sample.p1 (Some 2%nat)].
Proof. vm_compute. reflexivity. Qed.

Example paginate_queryset_sample :
  paginate_queryset (seq 0 23) (page_number 3) = Ok [20; 21; 22]%nat
  ∧ paginate_queryset (seq 0 23) (page_number 2) = Ok (seq 10 10)
  ∧ paginate_queryset (seq 0 23) (page_number 4) = Raise Http404
  ∧ paginate_queryset (seq 0 20) page_last = Ok (seq 10 10)
  ∧ paginate_queryset (@nil nat) page_absent = Ok [].
Proof. vm_compute. done. Qed.

Example PostDetailView_get_sample :
  PostDetailView_get AnonymousUser Sample.now 1 Sample.db
  = Ok (mkDetailContext (mkInstance 1 Sample.p1)
          [mkInstance 1 Sample.c1; mkInstance 2 Sample.c2]).
Proof. vm_compute. reflexivity. Qed.

(** * Further facts about the listings *)

Section listing_membership.

Implicit Types (db : DB) (qs : list PostRow) (r : PostRow).

Lemma elem_of_Post_objects db r :
  r ∈ Post_objects db
  ↔ posts db !! post_pk r = Some (post r) ∧ comment_count r = None.
Proof.
  unfold Post_objects. rewrite list_elem_of_fmap. split.
  - intros ([k p] & -> & Hin). by apply elem_of_map_to_list in Hin.
  - intros [Hlk Hc]. exists (post_pk r, post r). split.
    + destruct r; simpl in *; by subst.
    + by apply elem_of_map_to_list.
Qed.

Lemma elem_of_annotate db qs r :
  r ∈ annotate_comment_count db qs
  ↔ ∃ r0, r0 ∈ qs
          ∧ r = mkPostRow (post_pk r0) (post r0)
                  (Some (Count_comments db (post_pk r0))).
Proof.
  unfold annotate_comment_count. rewrite list_elem_of_fmap.
  split; intros (r0 & ? & ?); by exists r0.
Qed.

Lemma elem_of_order_by qs r : r ∈ order_by_pub_date_desc qs ↔ r ∈ qs.
Proof. by rewrite order_by_Permutation. Qed.

(** The rows of the global feed, one by one. *)
Lemma elem_of_PostListView db now r :
  r ∈ PostListView_get_queryset db now
  ↔ posts db !! post_pk r = Some (post r)
    ∧ public_post db now (stored r)
    ∧ comment_count r = Some (Count_comments db (post_pk r)).
Proof.
  unfold PostListView_get_queryset. rewrite elem_of_annotate. split.
  - intros (r0 & Hin & ->). apply (proj1 (elem_of_order_by _ _)) in Hin.
    apply list_elem_of_filter in Hin as [HP [Hlk _]%elem_of_Post_objects].
    by simpl.
  - intros (Hlk & HP & Hc).
    exists (mkPostRow (post_pk r) (post r) None). split.
    + apply elem_of_order_by, list_elem_of_filter. split; [exact HP|].
      by apply elem_of_Post_objects.
    + destruct r; simpl in *; by subst.
Qed.

(** A stored public post is shown to every viewer. *)
Lemma PostDetailView_get_object_public db now post_id (P : Post)
    (V : request_user) :
  posts db !! post_id = Some P →
  public_post db now (post_id, P) →
  PostDetailView_get_object V now post_id db = Ok (mkInstance post_id P).
Proof.
  intros HP (Hpub & Hdate & Hcat). simpl in *.
  unfold PostDetailView_get_object.
  rewrite get_object_or_404_pk, HP. simpl.
  destruct (author_eq (author P) V); [done|]. rewrite Hpub.
  unfold related.
  destruct (categories db !! category P) as [c|]; [|done].
  simpl in Hcat. injection Hcat as Hc. simpl. rewrite Hc. simpl.
  by rewrite bool_decide_eq_true_2.
Qed.

End listing_membership.

(** X1.  The global feed holds exactly the stored posts that are published,
    dated no later than now and filed under a published category, each
    once. *)
Theorem global_feed_lists_every_public_post (db : DB) (now : Z) :
  stored <$> PostListView_get_queryset db now
  ≡ₚ map_to_list (filter (public_post db now) (posts db)).
Proof.
  unfold PostListView_get_queryset.
  rewrite annotate_stored, order_by_Permutation.
  rewrite (filter_stored (public_post db now)
             (λ r, is_published (post r) = true
                   ∧ pub_date (post r) ≤ now
                   ∧ category__is_published db r)) by done.
  by rewrite Post_objects_stored, map_to_list_filter.
Qed.

(** X2.  Every row of a category feed is a row of the global feed, with the
    same comment count: a category page shows nothing the front page
    hides. *)
Theorem category_feed_within_global_feed
    (db : DB) (now : Z) (category_slug : string) (qs : list PostRow) :
  CategoryPostsView_get_queryset now category_slug db = Ok qs →
  Forall (λ r, r ∈ PostListView_get_queryset db now) qs.
Proof.
  unfold CategoryPostsView_get_queryset.
  destruct (CategoryPostsView_category category_slug db) as [c|e]; simpl;
    [|done].
  intros [= <-]. apply Forall_forall.
  intros r [Hcat Hin]%list_elem_of_filter.
  apply elem_of_annotate in Hin as (r0 & Hin & ->).
  apply (proj1 (elem_of_order_by _ _)) in Hin.
  apply list_elem_of_filter in Hin
    as [(Hpub & Hdate & _) [Hlk _]%elem_of_Post_objects].
  apply elem_of_PostListView. simpl. by repeat split.
Qed.

Lemma category_feed_within_global_feed_witness :
  Forall (λ r, r ∈ PostListView_get_queryset Sample.db Sample.now)
         [mkPostRow 2 Sample.p2 (Some 1%nat);
          mkPostRow 1 Sample.p1 (Some 2%nat)].
Proof.
  apply (category_feed_within_global_feed Sample.db Sample.now "travel").
  reflexivity.
Defined.

(** X3.  Every post listed in the global feed can be opened: for any viewer,
    signed in or not, the detail view returns that post. *)
Theorem global_feed_rows_open_to_everyone
    (db : DB) (now : Z) (V : request_user) :
  Forall (λ r, PostDetailView_get_object V now (post_pk r) db
               = Ok (mkInstance (post_pk r) (post r)))
         (PostListView_get_queryset db now).
Proof.
  apply Forall_forall. intros r (Hlk & HP & _)%elem_of_PostListView.
  by apply PostDetailView_get_object_public.
Qed.

(** X4.  When no stored user has the requested username, the profile view
    raises [Http404], both when it builds the listing and when it serves a
    page, whoever asks. *)
Theorem ProfileView_unknown_user
    (db : DB) (viewer : request_user) (name : string) (page : page_param) :
  (∀ k u, users db !! k = Some u → username u ≠ name) →
  ProfileView_get_queryset viewer name db = Raise Http404
  ∧ ProfileView_get viewer name page db = Raise Http404.
Proof.
  intros Hnone.
  assert (ProfileView_get_queryset viewer name db = Raise Http404) as Hqs.
  { unfold ProfileView_get_queryset. rewrite filter_objects_none; [done|].
    intros o Hin%elem_of_objects Hname. by apply (Hnone _ _ Hin). }
  split; [done|]. unfold ProfileView_get. by rewrite Hqs.
Qed.

Lemma ProfileView_unknown_user_witness :
  ProfileView_get_queryset (LoggedIn 1) "carol" Sample.db = Raise Http404
  ∧ ProfileView_get (LoggedIn 1) "carol" page_absent Sample.db = Raise Http404.
Proof.
  apply (ProfileView_unknown_user Sample.db (LoggedIn 1) "carol" page_absent).
  intros k u Hk Hname. subst.
  apply elem_of_map_to_list in Hk. vm_compute in Hk.
  repeat (apply elem_of_cons in Hk as [Hk|Hk]; [by simplify_eq|]).
  by apply not_elem_of_nil in Hk.
Defined.

(** * Pages *)

Section pages.

Context {A : Type}.
Implicit Types (l qs pg : list A) (n : Z).

Lemma Paginator_num_pages_spec l :
  1 ≤ Paginator_num_pages l
  ∧ Z.of_nat (length l) ≤ 10 * Paginator_num_pages l
  ∧ 10 * (Paginator_num_pages l - 1) < Z.max 1 (Z.of_nat (length l)).
Proof.
  unfold Paginator_num_pages, paginate_by. cbv zeta.
  generalize (Z.of_nat (length l)). intros c.
  pose proof (Z.div_mod (Z.max 1 c + 10 - 1) 10 ltac:(lia)).
  pose proof (Z.mod_pos_bound (Z.max 1 c + 10 - 1) 10 ltac:(lia)).
  lia.
Qed.

Lemma Paginator_page_Some l n :
  1 ≤ n ≤ Paginator_num_pages l →
  Paginator_page l n = Some (page_rows l n).
Proof.
  intros [Hlo Hhi]. unfold Paginator_page, page_rows.
  rewrite decide_False by lia. rewrite decide_False by lia.
  simpl. f_equal. unfold paginate_by.
  replace ((n - 1) * 10) with (10 * (n - 1)) by lia.
  case_decide as Hlast.
  - rewrite Nat2Z.id, (take_ge l (length l)) by lia.
    symmetry. apply take_ge. rewrite length_drop. lia.
  - rewrite take_drop_commute. do 2 f_equal. lia.
Qed.

Lemma Paginator_page_None l n :
  ¬ (1 ≤ n ≤ Paginator_num_pages l) → Paginator_page l n = None.
Proof.
  intros Hout. unfold Paginator_page.
  destruct (decide (n < 1)); [done|].
  destruct (decide (Paginator_num_pages l < n)); [done|]. lia.
Qed.

Lemma paginate_queryset_number qs n :
  paginate_queryset qs (page_number n)
  = if decide (1 ≤ n ≤ Paginator_num_pages qs) then Ok (page_rows qs n)
    else Raise Http404.
Proof.
  unfold paginate_queryset. simpl. case_decide.
  - by rewrite Paginator_page_Some.
  - by rewrite Paginator_page_None.
Qed.

Lemma page_rows_sublist l n : page_rows l n `sublist_of` l.
Proof.
  unfold page_rows. etransitivity; [apply sublist_take|apply sublist_drop].
Qed.

Lemma length_page_rows l n : (length (page_rows l n) ≤ 10)%nat.
Proof. unfold page_rows. rewrite length_take. lia. Qed.

(** Whatever the [page] parameter, a page that is served is one of the
    numbered pages. *)
Lemma paginate_queryset_Ok qs (page : page_param) pg :
  paginate_queryset qs page = Ok pg →
  ∃ n, 1 ≤ n ≤ Paginator_num_pages qs ∧ pg = page_rows qs n.
Proof.
  pose proof (Paginator_num_pages_spec qs) as (Hone & _ & _).
  assert (∀ n, paginate_queryset qs (page_number n) = Ok pg →
               ∃ n, 1 ≤ n ≤ Paginator_num_pages qs ∧ pg = page_rows qs n)
    as Hnum.
  { intros n. rewrite paginate_queryset_number.
    case_decide; [|done]. intros [= <-]. by exists n. }
  destruct page as [|n| |]; [apply (Hnum 1)|apply Hnum| |done].
  apply (Hnum (Paginator_num_pages qs)).
Qed.

Lemma concat_chunks l (m : nat) :
  (length l ≤ 10 * m)%nat →
  concat ((λ i : nat, take 10 (drop (10 * i) l)) <$> seq 0 m) = l.
Proof.
  revert l. induction m as [|m IH]; intros l Hlen.
  - destruct l; simpl in *; [done|lia].
  - rewrite <-cons_seq, fmap_cons, concat_cons.
    rewrite <-fmap_S_seq, <-list_fmap_compose.
    transitivity (take 10 l ++ drop 10 l); [|apply take_drop].
    f_equal. rewrite <-(IH (drop 10 l)) by (rewrite length_drop; lia).
    f_equal. apply list_fmap_ext. intros _ i _. simpl.
    rewrite drop_drop. do 2 f_equal. lia.
Qed.

Lemma StronglySorted_sublist (R : relation A) l1 l2 :
  l1 `sublist_of` l2 → StronglySorted R l2 → StronglySorted R l1.
Proof.
  induction 1 as [|x l1 l2 Hsub IH|x l1 l2 Hsub IH]; intros HS.
  - done.
  - apply StronglySorted_inv in HS as [HS Hall]. constructor; [by apply IH|].
    rewrite Forall_forall in Hall |- *. intros y Hy. apply Hall.
    by apply (sublist_subseteq _ _ Hsub).
  - apply StronglySorted_inv in HS as [HS _]. by apply IH.
Qed.

End pages.

(** X5.  A listing is cut into pages of at most ten rows that follow one
    another without gap or overlap: the pages numbered from 1 to the number
    of pages are all served, none holds more than ten rows, and laid end to
    end they are the listing. *)
Theorem pages_partition_listing {A} (qs : list A) :
  ∃ pages : list (list A),
    Forall2 (λ n pg, paginate_queryset qs (page_number n) = Ok pg)
            (seqZ 1 (Paginator_num_pages qs)) pages
    ∧ Forall (λ pg, (length pg ≤ 10)%nat) pages
    ∧ concat pages = qs.
Proof.
  pose proof (Paginator_num_pages_spec qs) as (Hone & Hlen & _).
  exists (page_rows qs <$> seqZ 1 (Paginator_num_pages qs)).
  split; [|split].
  - apply Forall2_fmap_r, Forall_Forall2_diag, Forall_forall.
    intros n Hn%elem_of_seqZ. rewrite paginate_queryset_number.
    by rewrite decide_True by lia.
  - apply Forall_fmap, Forall_forall. intros n _. apply length_page_rows.
  - unfold seqZ. rewrite <-list_fmap_compose.
    etransitivity;
      [|apply (concat_chunks qs (Z.to_nat (Paginator_num_pages qs))); lia].
    f_equal. apply list_fmap_ext. intros _ i _. simpl. unfold page_rows.
    do 2 f_equal. lia.
Qed.

(** X6.  Which pages exist: a page number below 1 or above the number of
    pages, and a page parameter that is neither a number nor [last], raise
    [Http404]; a missing parameter means page 1, which is served even for an
    empty listing; [last] means the page with the highest number, which ends
    with the last row of the listing. *)
Theorem paginate_queryset_edges {A} (qs : list A) (n : Z) :
  (n < 1 ∨ Paginator_num_pages qs < n →
   paginate_queryset qs (page_number n) = Raise Http404)
  ∧ paginate_queryset qs page_other = Raise Http404
  ∧ (∃ pg, paginate_queryset qs page_absent = Ok pg
           ∧ paginate_queryset qs (page_number 1) = Ok pg
           ∧ pg = take 10 qs)
  ∧ (∃ pg, paginate_queryset qs page_last = Ok pg
           ∧ paginate_queryset qs (page_number (Paginator_num_pages qs)) = Ok pg
           ∧ (∃ before, qs = before ++ pg)
           ∧ (pg = [] → qs = [])).
Proof.
  pose proof (Paginator_num_pages_spec qs) as (Hone & Hlen & Hlast).
  split; [|split; [done|split]].
  - intros Hout. rewrite paginate_queryset_number.
    by rewrite decide_False by lia.
  - exists (take 10 qs).
    assert (paginate_queryset qs (page_number 1) = Ok (take 10 qs)) as H1.
    { rewrite paginate_queryset_number. by rewrite decide_True by lia. }
    split; [exact H1|]. by split.
  - exists (page_rows qs (Paginator_num_pages qs)).
    assert (paginate_queryset qs (page_number (Paginator_num_pages qs))
            = Ok (page_rows qs (Paginator_num_pages qs))) as HN.
    { rewrite paginate_queryset_number. by rewrite decide_True by lia. }
    split; [exact HN|]. split; [exact HN|].
    unfold page_rows.
    set (k := Z.to_nat (10 * (Paginator_num_pages qs - 1))).
    assert (take 10 (drop k qs) = drop k qs) as ->.
    { apply take_ge. rewrite length_drop. lia. }
    split.
    + exists (take k qs). by rewrite take_drop.
    + intros Hnil. apply (f_equal length) in Hnil.
      rewrite length_drop in Hnil. simpl in Hnil.
      destruct qs; [done|]. simpl in *. lia.
Qed.

Lemma paginate_queryset_edges_witness :
  paginate_queryset (seq 0 23) (page_number 4) = Raise Http404.
Proof.
  apply (proj1 (paginate_queryset_edges (seq 0 23) 4)). right. vm_compute.
  reflexivity.
Defined.

(** * Pages of the list views and the context of the detail view *)

Section served_pages.

Implicit Types (db : DB) (qs pg : list PostRow) (r : PostRow).

Lemma paginate_queryset_rows {A} (qs : list A) (page : page_param) (pg : list A) :
  paginate_queryset qs page = Ok pg →
  (length pg ≤ 10)%nat ∧ pg `sublist_of` qs.
Proof.
  intros (n & _ & ->)%paginate_queryset_Ok.
  split; [apply length_page_rows|apply page_rows_sublist].
Qed.

Lemma sublist_Forall {A} (Q : A → Prop) (l1 l2 : list A) :
  l1 `sublist_of` l2 → Forall Q l2 → Forall Q l1.
Proof.
  intros Hsub. rewrite !Forall_forall. intros HQ x Hx. apply HQ.
  by apply (sublist_subseteq _ _ Hsub).
Qed.

Lemma PostListView_sorted db now :
  StronglySorted pub_date_desc (PostListView_get_queryset db now).
Proof. apply annotate_sorted, order_by_sorted. Qed.

#[local] Instance created_at_asc_trans : Transitive created_at_asc.
Proof. unfold created_at_asc. intros a b c ??. lia. Qed.

#[local] Instance created_at_asc_total : Total created_at_asc.
Proof. unfold created_at_asc. intros a b. lia. Qed.

Lemma PostDetailView_comments_sorted (p : Instance Post) db :
  StronglySorted created_at_asc (PostDetailView_comments p db).
Proof. apply (StronglySorted_merge_sort _). Qed.

Lemma PostDetailView_comments_stored (p : Instance Post) db :
  (λ c, (pk c, fields c)) <$> PostDetailView_comments p db
  ≡ₚ map_to_list (filter (λ kc, comment_post kc.2 = pk p) (comments db)).
Proof.
  unfold PostDetailView_comments. rewrite merge_sort_Permutation.
  rewrite <-map_to_list_filter. unfold objects.
  generalize (map_to_list (comments db)). intros l.
  induction l as [|[k c] l IH]; [done|]. csimpl.
  rewrite !filter_cons. simpl. case_decide; csimpl; by rewrite IH.
Qed.

End served_pages.

(** X7.  A page of the global feed that is served holds at most ten rows, in
    the order of the feed, latest publication first, and each row is a stored
    post that the public may see. *)
Theorem PostListView_served_page
    (db : DB) (now : Z) (page : page_param) (pg : list PostRow) :
  PostListView_get now page db = Ok pg →
  (length pg ≤ 10)%nat
  ∧ StronglySorted pub_date_desc pg
  ∧ Forall (λ r, posts db !! post_pk r = Some (post r)
                 ∧ public_post db now (stored r)) pg.
Proof.
  unfold PostListView_get. intros [Hlen Hsub]%paginate_queryset_rows.
  split; [done|split].
  - eapply StronglySorted_sublist; [exact Hsub|apply PostListView_sorted].
  - eapply sublist_Forall; [exact Hsub|]. apply Forall_forall.
    by intros r (? & ? & _)%elem_of_PostListView.
Qed.

Lemma PostListView_served_page_witness :
  (length [mkPostRow 2 Sample.p2 (Some 1%nat);
           mkPostRow 1 Sample.p1 (Some 2%nat)] ≤ 10)%nat
  ∧ StronglySorted pub_date_desc
      [mkPostRow 2 Sample.p2 (Some 1%nat); mkPostRow 1 Sample.p1 (Some 2%nat)]
  ∧ Forall (λ r, posts Sample.db !! post_pk r = Some (post r)
                 ∧ public_post Sample.db Sample.now (stored r))
      [mkPostRow 2 Sample.p2 (Some 1%nat); mkPostRow 1 Sample.p1 (Some 2%nat)].
Proof.
  apply (PostListView_served_page Sample.db Sample.now page_absent).
  reflexivity.
Defined.

(** X8.  When a profile page is served, the profile in its context is a
    stored user with the requested username, and the page holds at most ten
    rows, latest publication first, each a stored post written by that
    user. *)
Theorem ProfileView_served_page
    (db : DB) (viewer : request_user) (name : string) (page : page_param)
    (ctx : ProfileContext) :
  ProfileView_get viewer name page db = Ok ctx →
  users db !! pk (context_profile ctx) = Some (fields (context_profile ctx))
  ∧ username (fields (context_profile ctx)) = name
  ∧ (length (profile_page_obj ctx) ≤ 10)%nat
  ∧ StronglySorted pub_date_desc (profile_page_obj ctx)
  ∧ Forall (λ r, posts db !! post_pk r = Some (post r)
                 ∧ author (post r) = pk (context_profile ctx))
           (profile_page_obj ctx).
Proof.
  unfold ProfileView_get, ProfileView_get_queryset.
  destruct (get_object_or_404 _) as [profile|e] eqn:Hget; simpl; [|done].
  destruct (paginate_queryset _ page) as [pg|e] eqn:Hpage; simpl; [|done].
  intros [= <-]. simpl.
  apply paginate_queryset_rows in Hpage as [Hlen Hsub].
  apply get_object_or_404_Ok in Hget.
  assert (profile ∈ [profile]) as Hin by left. rewrite <-Hget in Hin.
  apply list_elem_of_filter in Hin as [Hname Hin%elem_of_objects].
  split; [done|split; [done|split; [done|split]]].
  - eapply StronglySorted_sublist; [exact Hsub|apply order_by_sorted].
  - eapply sublist_Forall; [exact Hsub|]. apply Forall_forall.
    intros r Hr. apply (proj1 (elem_of_order_by _ _)) in Hr.
    apply elem_of_annotate in Hr as (r0 & Hr & ->). simpl.
    by apply list_elem_of_filter in Hr as [Ha [Hlk _]%elem_of_Post_objects].
Qed.

Lemma ProfileView_served_page_witness :
  users Sample.db !! 2 = Some Sample.bob
  ∧ username Sample.bob = "bob"
  ∧ (length [mkPostRow 4 Sample.p4 (Some 0%nat);
             mkPostRow 5 Sample.p5 (Some 0%nat)] ≤ 10)%nat
  ∧ StronglySorted pub_date_desc
      [mkPostRow 4 Sample.p4 (Some 0%nat); mkPostRow 5 Sample.p5 (Some 0%nat)]
  ∧ Forall (λ r, posts Sample.db !! post_pk r = Some (post r)
                 ∧ author (post r) = 2)
      [mkPostRow 4 Sample.p4 (Some 0%nat); mkPostRow 5 Sample.p5 (Some 0%nat)].
Proof.
  apply (ProfileView_served_page Sample.db AnonymousUser "bob" page_absent
           (mkProfileContext
              [mkPostRow 4 Sample.p4 (Some 0%nat);
               mkPostRow 5 Sample.p5 (Some 0%nat)]
              (mkInstance 2 Sample.bob))).
  reflexivity.
Defined.

(** X9.  When a category page is served, the category in its context is a
    stored, published category with the requested slug, and the page holds at
    most ten rows, latest publication first, each a stored post of that
    category that is published and not dated in the future. *)
Theorem CategoryPostsView_served_page
    (db : DB) (now : Z) (category_slug : string) (page : page_param)
    (ctx : CategoryContext) :
  CategoryPostsView_get now category_slug page db = Ok ctx →
  categories db !! pk (context_category ctx)
    = Some (fields (context_category ctx))
  ∧ slug (fields (context_category ctx)) = category_slug
  ∧ category_is_published (fields (context_category ctx)) = true
  ∧ (length (category_page_obj ctx) ≤ 10)%nat
  ∧ StronglySorted pub_date_desc (category_page_obj ctx)
  ∧ Forall (λ r, posts db !! post_pk r = Some (post r)
                 ∧ category (post r) = pk (context_category ctx)
                 ∧ is_published (post r) = true
                 ∧ pub_date (post r) ≤ now)
           (category_page_obj ctx).
Proof.
  unfold CategoryPostsView_get, CategoryPostsView_get_queryset.
  destruct (CategoryPostsView_category category_slug db) as [c|e] eqn:Hget;
    simpl; [|done].
  destruct (paginate_queryset _ page) as [pg|e] eqn:Hpage; simpl; [|done].
  intros [= <-]. simpl.
  apply paginate_queryset_rows in Hpage as [Hlen Hsub].
  apply get_object_or_404_Ok in Hget.
  assert (c ∈ [c]) as Hin by left. rewrite <-Hget in Hin.
  apply list_elem_of_filter in Hin as [[Hslug Hpub] Hin%elem_of_objects].
  split; [done|split; [done|split; [done|split; [done|split]]]].
  - eapply StronglySorted_sublist; [exact Hsub|].
    apply StronglySorted_filter, annotate_sorted, order_by_sorted.
  - eapply sublist_Forall; [exact Hsub|]. apply Forall_forall.
    intros r [_ Hr]%list_elem_of_filter.
    apply elem_of_annotate in Hr as (r0 & Hr & ->). simpl.
    apply (proj1 (elem_of_order_by _ _)) in Hr.
    apply list_elem_of_filter in Hr
      as [(? & ? & ?) [Hlk _]%elem_of_Post_objects].
    done.
Qed.

Lemma CategoryPostsView_served_page_witness :
  categories Sample.db !! 1 = Some Sample.travel
  ∧ slug Sample.travel = "travel"
  ∧ category_is_published Sample.travel = true
  ∧ (length [mkPostRow 2 Sample.p2 (Some 1%nat);
             mkPostRow 1 Sample.p1 (Some 2%nat)] ≤ 10)%nat
  ∧ StronglySorted pub_date_desc
      [mkPostRow 2 Sample.p2 (Some 1%nat); mkPostRow 1 Sample.p1 (Some 2%nat)]
  ∧ Forall (λ r, posts Sample.db !! post_pk r = Some (post r)
                 ∧ category (post r) = 1
                 ∧ is_published (post r) = true
                 ∧ pub_date (post r) ≤ Sample.now)
      [mkPostRow 2 Sample.p2 (Some 1%nat); mkPostRow 1 Sample.p1 (Some 2%nat)].
Proof.
  apply (CategoryPostsView_served_page Sample.db Sample.now "travel"
           page_absent
           (mkCategoryContext
              [mkPostRow 2 Sample.p2 (Some 1%nat);
               mkPostRow 1 Sample.p1 (Some 2%nat)]
              (mkInstance 1 Sample.travel))).
  reflexivity.
Defined.

(** X10.  The detail page of a post shows its comments only to a viewer who
    may see the post: when fetching the post raises, serving the page raises
    the same exception and no context is built; when the post is returned,
    the context holds that post and exactly the stored comments attached to
    it, each once, oldest first. *)
Theorem PostDetailView_context
    (db : DB) (now post_id : Z) (V : request_user) :
  (∀ e, PostDetailView_get_object V now post_id db = Raise e →
        PostDetailView_get V now post_id db = Raise e)
  ∧ (∀ p, PostDetailView_get_object V now post_id db = Ok p →
          ∃ cs, PostDetailView_get V now post_id db = Ok (mkDetailContext p cs)
                ∧ StronglySorted created_at_asc cs
                ∧ (λ c, (pk c, fields c)) <$> cs
                  ≡ₚ map_to_list (filter (λ kc, comment_post kc.2 = pk p)
                                         (comments db))).
Proof.
  unfold PostDetailView_get, PostDetailView_get_context_data. split.
  - intros e ->. done.
  - intros p ->. simpl. eexists. split; [done|]. split.
    + apply PostDetailView_comments_sorted.
    + apply PostDetailView_comments_stored.
Qed.

Lemma PostDetailView_context_witness :
  PostDetailView_get (LoggedIn 2) Sample.now 3 Sample.db = Raise Http404
  ∧ ∃ cs, PostDetailView_get AnonymousUser Sample.now 1 Sample.db
          = Ok (mkDetailContext (mkInstance 1 Sample.p1) cs)
          ∧ StronglySorted created_at_asc cs
          ∧ (λ c, (pk c, fields c)) <$> cs
            ≡ₚ map_to_list (filter (λ kc, comment_post kc.2 = 1)
                                   (comments Sample.db)).
Proof.
  split.
  - apply (proj1 (PostDetailView_context Sample.db Sample.now 3 (LoggedIn 2))).
    reflexivity.
  - apply (proj2 (PostDetailView_context Sample.db Sample.now 1 AnonymousUser)
             (mkInstance 1 Sample.p1)).
    reflexivity.
Defined.

(** * What the handlers write *)

Section handler_facts.

Implicit Types (db : DB) (A : request_user).

Lemma fresh_post_key db : posts db !! fresh (dom (posts db)) = None.
Proof. apply not_elem_of_dom, is_fresh. Qed.

Lemma fresh_comment_key db : comments db !! fresh (dom (comments db)) = None.
Proof. apply not_elem_of_dom, is_fresh. Qed.

(** The object [PostDeleteView] finds is a stored post of the caller. *)
Lemma PostDeleteView_get_object_Ok (request : request unit) post_id db
    (o : Instance Post) :
  PostDeleteView_get_object request post_id db = Ok o →
  pk o = post_id
  ∧ posts db !! post_id = Some (fields o)
  ∧ user request = LoggedIn (author (fields o)).
Proof.
  unfold PostDeleteView_get_object, PostDeleteView_get_queryset,
    SingleObjectMixin_get_object.
  destruct (user request) as [|i]; simpl; [done|].
  intros Hget%get_object_or_404_Ok.
  assert (o ∈ [o]) as Hin by left. rewrite <-Hget in Hin.
  apply list_elem_of_filter in Hin as [Hpk Hin].
  apply list_elem_of_filter in Hin as [Hau Hin%elem_of_objects].
  by subst.
Qed.

End handler_facts.

(** X11.  A signed-in, stored user who posts a valid form to the create view
    adds exactly one post, under a key that was free, whose author is that
    user whatever the form says, and is redirected to the profile page under
    that user's username; every other row of the database is left as it
    was. *)
Theorem PostCreateView_creates_post_of_caller
    (db : DB) (now user_id : Z) (U : User) (f : PostForm) :
  users db !! user_id = Some U →
  ∃ k p,
    posts db !! k = None
    ∧ author p = user_id
    ∧ respond (PostCreateView_dispatch now
                 (mkRequest (LoggedIn user_id) POST (Some f))) db
      = (HttpResponseRedirect (profile (username U)), set_posts <[k := p]> db).
Proof.
  intros HU. eexists (fresh (dom (posts db))), _.
  split; [apply fresh_post_key|]. split; [|].
  - shelve.
  - unfold PostCreateView_dispatch, PostCreateView_form_valid, create_post.
    view_unfold. unfold related. simpl. rewrite HU. reflexivity.
  Unshelve. done.
Qed.

Lemma PostCreateView_creates_post_of_caller_witness :
  ∃ k p,
    posts Sample.db !! k = None
    ∧ author p = 2
    ∧ respond (PostCreateView_dispatch 60
                 (mkRequest (LoggedIn 2) POST
                    (Some (mkPostForm "six" "sixth" 1 None 70 true))))
              Sample.db
      = (HttpResponseRedirect (profile (username Sample.bob)),
         set_posts <[k := p]> Sample.db).
Proof.
  apply (PostCreateView_creates_post_of_caller Sample.db 60 2 Sample.bob).
  reflexivity.
Defined.

Section safe_requests.

Variable LOGIN_URL : string.

(** X12.  A [GET] request writes nothing: whoever the caller and whatever
    the identifiers, each of the seven handlers that can write returns the
    database it was given. *)
Theorem GET_never_writes
    (db : DB) (now post_id comment_id : Z) (A : request_user)
    (pf : option PostForm) (cf : option CommentForm)
    (uf : option UserProfileForm) (df : option unit) :
  (respond (PostCreateView_dispatch now (mkRequest A GET pf)) db).2 = db
  ∧ (respond (PostUpdateView_dispatch (mkRequest A GET pf) post_id) db).2 = db
  ∧ (respond (PostDeleteView_dispatch LOGIN_URL (mkRequest A GET df) post_id)
       db).2 = db
  ∧ (respond (EditProfileView_dispatch LOGIN_URL (mkRequest A GET uf)) db).2
    = db
  ∧ (respond (AddCommentView_dispatch LOGIN_URL now (mkRequest A GET cf)
                post_id) db).2 = db
  ∧ (respond (EditCommentView_dispatch LOGIN_URL (mkRequest A GET cf)
                comment_id) db).2 = db
  ∧ (respond (DeleteCommentView_dispatch LOGIN_URL (mkRequest A GET df)
                post_id comment_id) db).2 = db.
Proof.
  repeat split.
  - unfold PostCreateView_dispatch. view_unfold. by destruct A.
  - unfold PostUpdateView_dispatch, PostUpdateView_super_dispatch,
      PostUpdateView_handler, PostUpdateView_test_func. view_unfold.
    destruct (PostUpdateView_get_object post_id db) as [o|e] eqn:Hget; simpl;
      [|by case_match].
    destruct (is_authenticated A && _); simpl; [|done]. by rewrite Hget.
  - unfold PostDeleteView_dispatch, PostDeleteView_super_dispatch,
      PostDeleteView_handler. view_unfold.
    destruct A; simpl; [done|].
    destruct (PostDeleteView_get_object _ _ _); simpl; [done|by case_match].
  - unfold EditProfileView_dispatch, EditProfileView_get_object, related.
    view_unfold. destruct A as [|i]; simpl; [done|].
    by destruct (users db !! i).
  - unfold AddCommentView_dispatch. view_unfold. by destruct A.
  - unfold EditCommentView_dispatch, EditCommentView_super_dispatch,
      EditCommentView_handler. view_unfold.
    destruct (EditCommentView_get_object comment_id db) as [o|e] eqn:Hget;
      simpl; [|by case_match].
    destruct (author_eq _ A); simpl; [|done].
    destruct A; simpl; [done|]. by rewrite Hget.
  - unfold DeleteCommentView_dispatch, DeleteCommentView_super_dispatch,
      DeleteCommentView_handler. view_unfold.
    destruct (DeleteCommentView_get_object comment_id db) as [o|e] eqn:Hget;
      simpl; [|by case_match].
    destruct (author_eq _ A); simpl; [|done].
    destruct A; simpl; [done|]. by rewrite Hget.
Qed.

(** X13.  A [POST] whose form does not validate writes nothing: each of the
    five form handlers returns the database it was given, whoever the
    caller. *)
Theorem invalid_form_never_writes
    (db : DB) (now post_id comment_id : Z) (A : request_user) :
  (respond (PostCreateView_dispatch now (mkRequest A POST None)) db).2 = db
  ∧ (respond (PostUpdateView_dispatch (mkRequest A POST None) post_id) db).2
    = db
  ∧ (respond (EditProfileView_dispatch LOGIN_URL (mkRequest A POST None)) db).2
    = db
  ∧ (respond (AddCommentView_dispatch LOGIN_URL now (mkRequest A POST None)
                post_id) db).2 = db
  ∧ (respond (EditCommentView_dispatch LOGIN_URL (mkRequest A POST None)
                comment_id) db).2 = db.
Proof.
  repeat split.
  - unfold PostCreateView_dispatch. view_unfold. by destruct A.
  - unfold PostUpdateView_dispatch, PostUpdateView_super_dispatch,
      PostUpdateView_handler, PostUpdateView_test_func. view_unfold.
    destruct (PostUpdateView_get_object post_id db) as [o|e] eqn:Hget; simpl;
      [|by case_match].
    destruct (is_authenticated A && _); simpl; [|done]. by rewrite Hget.
  - unfold EditProfileView_dispatch, EditProfileView_get_object, related.
    view_unfold. destruct A as [|i]; simpl; [done|].
    by destruct (users db !! i).
  - unfold AddCommentView_dispatch. view_unfold. by destruct A.
  - unfold EditCommentView_dispatch, EditCommentView_super_dispatch,
      EditCommentView_handler. view_unfold.
    destruct (EditCommentView_get_object comment_id db) as [o|e] eqn:Hget;
      simpl; [|by case_match].
    destruct (author_eq _ A); simpl; [|done].
    destruct A; simpl; [done|]. by rewrite Hget.
Qed.

End safe_requests.

Section handler_outcomes.

Variable LOGIN_URL : string.

Implicit Types (db : DB) (A : request_user).

Lemma PostUpdateView_dispatch_missing db key (request : request PostForm) :
  posts db !! key = None →
  PostUpdateView_dispatch request key db = (Raise Http404, db).
Proof.
  intros Hnone.
  unfold PostUpdateView_dispatch, PostUpdateView_test_func,
    PostUpdateView_get_object, SingleObjectMixin_get_object, view_bind, query.
  by rewrite get_object_or_404_pk, Hnone.
Qed.

Lemma EditCommentView_dispatch_missing db comment_id
    (request : request CommentForm) :
  comments db !! comment_id = None →
  EditCommentView_dispatch LOGIN_URL request comment_id db
  = (Raise Http404, db).
Proof.
  intros Hnone.
  unfold EditCommentView_dispatch, EditCommentView_get_object, view_bind,
    query.
  by rewrite get_object_or_404_pk, Hnone.
Qed.

Lemma DeleteCommentView_dispatch_missing db post_id comment_id
    (request : request unit) :
  comments db !! comment_id = None →
  DeleteCommentView_dispatch LOGIN_URL request post_id comment_id db
  = (Raise Http404, db).
Proof.
  intros Hnone.
  unfold DeleteCommentView_dispatch, DeleteCommentView_get_object,
    SingleObjectMixin_get_object, view_bind, query.
  by rewrite get_object_or_404_pk, Hnone.
Qed.


End handler_outcomes.


Section post_deletion.

Variable LOGIN_URL : string.

(** X15.  Whatever request reaches the delete view of a post: users and
    categories are left as they were; no post is added or altered; every post
    other than the one addressed stays; a post whose author is not the caller
    stays; and every comment on another post stays. *)
Theorem PostDeleteView_removes_only_own_post
    (db : DB) (post_id : Z) (request : request unit) :
  let db' := (respond (PostDeleteView_dispatch LOGIN_URL request post_id) db).2 in
  users db' = users db
  ∧ categories db' = categories db
  ∧ (∀ j p, posts db' !! j = Some p → posts db !! j = Some p)
  ∧ (∀ j, j ≠ post_id → posts db' !! j = posts db !! j)
  ∧ (∀ j p, posts db !! j = Some p → user request ≠ LoggedIn (author p) →
            posts db' !! j = Some p)
  ∧ (∀ j c, comments db !! j = Some c → comment_post c ≠ post_id →
            comments db' !! j = Some c).
Proof.
  intros db'. subst db'.
  unfold PostDeleteView_dispatch, PostDeleteView_super_dispatch,
    PostDeleteView_handler, delete_post. view_unfold.
  destruct (is_authenticated (user request)); simpl; [|done].
  destruct (PostDeleteView_get_object request post_id db) as [o|e] eqn:Hget;
    simpl; [|by case_match].
  apply PostDeleteView_get_object_Ok in Hget as (Hpk & Hlk & Hau).
  destruct (method request); simpl; [done|].
  rewrite Hpk. repeat split.
  - intros j p Hj. destruct (decide (j = post_id)) as [->|Hne].
    + by rewrite lookup_delete_eq in Hj.
    + by rewrite lookup_delete_ne in Hj.
  - intros j Hne. by rewrite lookup_delete_ne.
  - intros j p Hj Hnot. destruct (decide (j = post_id)) as [->|Hne].
    + rewrite Hlk in Hj. injection Hj as <-. by destruct Hnot.
    + by rewrite lookup_delete_ne.
  - intros j c Hj Hne. by apply map_lookup_filter_Some.
Qed.

(** X16.  When the author of a stored post confirms its deletion, the answer
    is a redirect to the index, the post is gone from the table, its detail
    page raises [Http404] for every viewer, the author included, and no row
    of the global feed refers to it. *)
Theorem PostDeleteView_author_deletes
    (db : DB) (now post_id : Z) (P : Post) (df : option unit) :
  posts db !! post_id = Some P →
  let out := respond (PostDeleteView_dispatch LOGIN_URL
                        (mkRequest (LoggedIn (author P)) POST df) post_id) db in
  out.1 = HttpResponseRedirect index
  ∧ posts out.2 !! post_id = None
  ∧ (∀ V, PostDetailView_get_object V now post_id out.2 = Raise Http404)
  ∧ Forall (λ r, post_pk r ≠ post_id) (PostListView_get_queryset out.2 now).
Proof.
  intros HP out. subst out. unfold respond.
  rewrite (PostDeleteView_dispatch_stored LOGIN_URL db post_id P _ HP).
  simpl. rewrite decide_True by done.
  unfold PostDeleteView_handler, delete_post. view_unfold.
  set (db' := set_comments _ _).
  assert (posts db' !! post_id = None) as Hgone by apply lookup_delete_eq.
  split; [done|split; [done|split]].
  - intros V. unfold PostDetailView_get_object.
    by rewrite get_object_or_404_pk, Hgone.
  - apply Forall_forall. intros r (Hlk & _)%elem_of_PostListView Heq.
    by rewrite Heq, Hgone in Hlk.
Qed.

End post_deletion.

Lemma PostDeleteView_author_deletes_witness :
  let out := respond (PostDeleteView_dispatch "/auth/login/"
                        (mkRequest (LoggedIn (author Sample.p1)) POST None) 1)
               Sample.db in
  out.1 = HttpResponseRedirect index
  ∧ posts out.2 !! 1 = None
  ∧ (∀ V, PostDetailView_get_object V Sample.now 1 out.2 = Raise Http404)
  ∧ Forall (λ r, post_pk r ≠ 1) (PostListView_get_queryset out.2 Sample.now).
Proof.
  apply (PostDeleteView_author_deletes "/auth/login/" Sample.db Sample.now 1
           Sample.p1 None).
  reflexivity.
Defined.

Section comment_handlers.

Variable LOGIN_URL : string.

Implicit Types (db : DB) (A : request_user).

Lemma AddCommentView_dispatch_valid db now post_id user_id (P : Post)
    (f : CommentForm) :
  posts db !! post_id = Some P →
  respond (AddCommentView_dispatch LOGIN_URL now
             (mkRequest (LoggedIn user_id) POST (Some f)) post_id) db
  = (HttpResponseRedirect (post_detail post_id),
     set_comments <[fresh (dom (comments db))
                    := mkComment post_id user_id f now]> db).
Proof.
  intros HP. unfold AddCommentView_dispatch, AddCommentView_form_valid,
    create_comment. view_unfold.
  by rewrite get_object_or_404_pk, HP.
Qed.

(** X17.  A signed-in user who posts a valid comment form for a stored post,
    published or not, adds exactly one comment, under a key that was free,
    attached to that post and written by that user, and is redirected to the
    detail page of the post; when no post has the identifier the answer is
    not-found and nothing is written. *)
Theorem AddCommentView_adds_comment_of_caller
    (db : DB) (now post_id user_id : Z) (f : CommentForm) :
  let out := respond (AddCommentView_dispatch LOGIN_URL now
                        (mkRequest (LoggedIn user_id) POST (Some f)) post_id)
               db in
  match posts db !! post_id with
  | Some _ =>
      ∃ k c, comments db !! k = None
             ∧ comment_post c = post_id
             ∧ comment_author c = user_id
             ∧ out = (HttpResponseRedirect (post_detail post_id),
                      set_comments <[k := c]> db)
  | None => out = (HttpResponseNotFound, db)
  end.
Proof.
  simpl. destruct (posts db !! post_id) as [P|] eqn:HP.
  - rewrite (AddCommentView_dispatch_valid db now post_id user_id P f HP).
    eexists _, _. split; [apply fresh_comment_key|].
    split; [|split]; [| |reflexivity]; done.
  - unfold AddCommentView_dispatch, AddCommentView_form_valid. view_unfold.
    by rewrite get_object_or_404_pk, HP.
Qed.

Lemma Count_comments_insert db k (c : Comment) post_id :
  comments db !! k = None →
  Count_comments (set_comments <[k := c]> db) post_id
  = if decide (comment_post c = post_id) then S (Count_comments db post_id)
    else Count_comments db post_id.
Proof.
  intros Hk. rewrite !Count_comments_size. simpl.
  case_decide as Hc.
  - rewrite map_filter_insert_True by done.
    apply map_size_insert_None. apply map_lookup_filter_None. by left.
  - rewrite map_filter_insert_False by done.
    by rewrite delete_id.
Qed.

(** X18.  After a signed-in user has posted a valid comment on a stored post,
    the global feed has the same rows as before, except that the row of that
    post, if the post is listed, counts one comment more. *)
Theorem AddCommentView_raises_comment_count
    (db : DB) (now at_time post_id user_id : Z) (P : Post) (f : CommentForm) :
  posts db !! post_id = Some P →
  let db' := (respond (AddCommentView_dispatch LOGIN_URL at_time
                         (mkRequest (LoggedIn user_id) POST (Some f)) post_id)
                db).2 in
  Forall (λ r,
            mkPostRow (post_pk r) (post r)
              (if decide (post_pk r = post_id) then S <$> comment_count r
               else comment_count r)
            ∈ PostListView_get_queryset db' now)
         (PostListView_get_queryset db now).
Proof.
  intros HP db'. subst db'.
  rewrite (AddCommentView_dispatch_valid db at_time post_id user_id P f HP).
  simpl. apply Forall_forall.
  intros r (Hlk & Hpub & Hcount)%elem_of_PostListView.
  apply elem_of_PostListView. simpl. split; [done|]. split; [done|].
  rewrite Count_comments_insert by apply fresh_comment_key. simpl.
  rewrite Hcount. destruct (decide (post_pk r = post_id)) as [Heq|Hne].
  - by rewrite decide_True by done.
  - by rewrite decide_False by done.
Qed.



(** X20.  Whatever request reaches the delete view of a comment: users,
    categories and posts are left as they were; no comment is added or
    altered; every comment other than the one addressed stays; and a comment
    whose author is not the caller stays. *)
Theorem DeleteCommentView_removes_only_own_comment
    (db : DB) (post_id comment_id : Z) (request : request unit) :
  let db' := (respond (DeleteCommentView_dispatch LOGIN_URL request post_id
                         comment_id) db).2 in
  users db' = users db
  ∧ categories db' = categories db
  ∧ posts db' = posts db
  ∧ (∀ j c, comments db' !! j = Some c → comments db !! j = Some c)
  ∧ (∀ j, j ≠ comment_id → comments db' !! j = comments db !! j)
  ∧ (∀ j c, comments db !! j = Some c →
            user request ≠ LoggedIn (comment_author c) →
            comments db' !! j = Some c).
Proof.
  intros db'. subst db'. unfold respond.
  destruct (comments db !! comment_id) as [C|] eqn:HC.
  2:{ by rewrite (DeleteCommentView_dispatch_missing LOGIN_URL db post_id
                    comment_id _ HC). }
  rewrite (DeleteCommentView_dispatch_stored LOGIN_URL db post_id comment_id
             C _ HC).
  case_decide as Hcm; [|done]. destruct Hcm as [_ Hau].
  unfold DeleteCommentView_handler, delete_comment. view_unfold.
  destruct (method request); simpl; [done|].
  repeat split.
  - intros j c Hj. destruct (decide (j = comment_id)) as [->|Hne].
    + by rewrite lookup_delete_eq in Hj.
    + by rewrite lookup_delete_ne in Hj.
  - intros j Hne. by rewrite lookup_delete_ne.
  - intros j c Hj Hnot. destruct (decide (j = comment_id)) as [->|Hne].
    + rewrite HC in Hj. injection Hj as <-. by destruct Hnot.
    + by rewrite lookup_delete_ne.
Qed.

(** X21.  When the author of a stored comment confirms its deletion, that
    comment and no other is removed, and the answer is a redirect to the
    detail page of the post named in the address, whether or not the comment
    was attached to that post. *)
Theorem DeleteCommentView_author_deletes
    (db : DB) (post_id comment_id : Z) (C : Comment) (df : option unit) :
  comments db !! comment_id = Some C →
  respond (DeleteCommentView_dispatch LOGIN_URL
             (mkRequest (LoggedIn (comment_author C)) POST df) post_id
             comment_id) db
  = (HttpResponseRedirect (post_detail post_id),
     set_comments (delete comment_id) db).
Proof.
  intros HC. unfold respond.
  rewrite (DeleteCommentView_dispatch_stored LOGIN_URL db post_id comment_id
             C _ HC).
  simpl. by rewrite decide_True by done.
Qed.

End comment_handlers.

Lemma AddCommentView_raises_comment_count_witness :
  let db' := (respond (AddCommentView_dispatch "/auth/login/" 40
                         (mkRequest (LoggedIn 2) POST (Some "more")) 1)
                Sample.db).2 in
  Forall (λ r,
            mkPostRow (post_pk r) (post r)
              (if decide (post_pk r = 1) then S <$> comment_count r
               else comment_count r)
            ∈ PostListView_get_queryset db' Sample.now)
         (PostListView_get_queryset Sample.db Sample.now).
Proof.
  apply (AddCommentView_raises_comment_count "/auth/login/" Sample.db
           Sample.now 40 1 2 Sample.p1 "more").
  reflexivity.
Defined.

Lemma DeleteCommentView_author_deletes_witness :
  respond (DeleteCommentView_dispatch "/auth/login/"
             (mkRequest (LoggedIn (comment_author Sample.c3)) POST None) 1 3)
          Sample.db
  = (HttpResponseRedirect (post_detail 1),
     set_comments (delete 3) Sample.db).
Proof.
  apply (DeleteCommentView_author_deletes "/auth/login/" Sample.db 1 3
           Sample.c3 None).
  reflexivity.
Defined.

Section more_outcomes.

Variable LOGIN_URL : string.

Implicit Types (db : DB) (A : request_user).

(** The author opens a stored post of their own whatever its state. *)
Lemma PostDetailView_get_object_author db now post_id (P : Post) :
  posts db !! post_id = Some P →
  PostDetailView_get_object (LoggedIn (author P)) now post_id db
  = Ok (mkInstance post_id P).
Proof.
  intros HP. unfold PostDetailView_get_object.
  rewrite get_object_or_404_pk, HP. simpl.
  by rewrite bool_decide_eq_true_2.
Qed.

Lemma ProfileView_profile_stored db user_id (U : User) :
  unique_usernames db →
  users db !! user_id = Some U →
  get_object_or_404
    (filter (λ u, username (fields u) = username U) (objects (users db)))
  = Ok (mkInstance user_id U).
Proof.
  intros Huniq HU.
  rewrite (filter_objects_unique _ (users db) user_id U); [done|done|done|].
  intros o Hin Hname.
  assert (o = mkInstance user_id U) as ->; [|done].
  apply (NoDup_fmap_eq (λ o, username (fields o)) (objects (users db)));
    [done|done| |done].
  by apply elem_of_objects.
Qed.

(** X22.  The profile edit view works on the row of the caller and on no
    other: whatever the request, categories, posts and comments are left as
    they were and so is the row of every user other than the caller; and
    when a stored, signed-in user posts a valid form, the redirect goes to
    the profile page under the username now stored in that user's row. *)
Theorem EditProfileView_edits_only_caller
    (db : DB) (request : request UserProfileForm) :
  let out := respond (EditProfileView_dispatch LOGIN_URL request) db in
  categories out.2 = categories db
  ∧ posts out.2 = posts db
  ∧ comments out.2 = comments db
  ∧ (∀ j, user request ≠ LoggedIn j → users out.2 !! j = users db !! j)
  ∧ (∀ user_id U f,
       user request = LoggedIn user_id → users db !! user_id = Some U →
       method request = POST → form request = Some f →
       ∃ U', users out.2 !! user_id = Some U'
             ∧ out.1 = HttpResponseRedirect (profile (username U'))).
Proof.
  simpl. unfold EditProfileView_dispatch, EditProfileView_get_object, related.
  view_unfold.
  destruct (user request) as [|i] eqn:Huser; simpl.
  { repeat split; try done. }
  destruct (users db !! i) as [U|] eqn:HU; simpl.
  2:{ repeat split; try done. intros uid U f [= <-]. by rewrite HU. }
  destruct (method request) eqn:Hm; simpl.
  { repeat split; try done. }
  destruct (form request) as [f|] eqn:Hf; simpl.
  2:{ repeat split; try done. }
  repeat split.
  - intros j Hne. rewrite lookup_insert_ne; [done|]. by intros ->.
  - intros uid U0 f0 [= <-] _ _ _. exists f. by rewrite lookup_insert_eq.
Qed.

(** X23.  An identifier that names no stored row is answered not-found and
    nothing is written, before any question of permission: the detail view
    and the edit view of a missing post, and the edit and delete views of a
    missing comment, raise [Http404] for every caller, anonymous callers
    included; the delete view of a missing post does so for every signed-in
    caller. *)
Theorem missing_object_not_found
    (db : DB) (now post_id comment_id url_post_id : Z) (A : request_user)
    (m : http_method) (pf : option PostForm) (cf : option CommentForm)
    (df : option unit) :
  posts db !! post_id = None →
  comments db !! comment_id = None →
  PostDetailView_get_object A now post_id db = Raise Http404
  ∧ respond (PostUpdateView_dispatch (mkRequest A m pf) post_id) db
    = (HttpResponseNotFound, db)
  ∧ respond (EditCommentView_dispatch LOGIN_URL (mkRequest A m cf) comment_id)
      db
    = (HttpResponseNotFound, db)
  ∧ respond (DeleteCommentView_dispatch LOGIN_URL (mkRequest A m df)
               url_post_id comment_id) db
    = (HttpResponseNotFound, db)
  ∧ (is_authenticated A = true →
     respond (PostDeleteView_dispatch LOGIN_URL (mkRequest A m df) post_id) db
     = (HttpResponseNotFound, db)).
Proof.
  intros HP HC. unfold respond.
  rewrite (PostUpdateView_dispatch_missing db post_id _ HP).
  rewrite (EditCommentView_dispatch_missing LOGIN_URL db comment_id _ HC).
  rewrite (DeleteCommentView_dispatch_missing LOGIN_URL db url_post_id
             comment_id _ HC).
  split.
  { unfold PostDetailView_get_object. by rewrite get_object_or_404_pk, HP. }
  do 3 (split; [done|]).
  intros Hauth. destruct A as [|i]; [done|].
  unfold PostDeleteView_dispatch, PostDeleteView_super_dispatch,
      PostDeleteView_get_object, PostDeleteView_get_queryset,
    SingleObjectMixin_get_object. view_unfold.
  rewrite list_filter_filter, filter_objects_none; [done|].
  intros o Hin%elem_of_objects [Hpk _]. congruence.
Qed.

(** X24.  A post that a stored user has just created reaches its author at
    once, whatever its publication state: the author's detail view of the new
    key returns the new post at any time, and, usernames being unique, the
    profile listing of the author, for any viewer, holds it. *)
Theorem PostCreateView_post_reaches_author
    (db : DB) (now user_id : Z) (U : User) (f : PostForm)
    (viewer : request_user) :
  unique_usernames db →
  users db !! user_id = Some U →
  let db' := (respond (PostCreateView_dispatch now
                         (mkRequest (LoggedIn user_id) POST (Some f))) db).2 in
  ∃ k p,
    posts db !! k = None
    ∧ posts db' !! k = Some p
    ∧ (∀ at_time, PostDetailView_get_object (LoggedIn user_id) at_time k db'
                  = Ok (mkInstance k p))
    ∧ ∃ qs, ProfileView_get_queryset viewer (username U) db' = Ok qs
            ∧ (k, p) ∈ stored <$> qs.
Proof.
  intros Huniq HU db'. subst db'.
  unfold PostCreateView_dispatch, PostCreateView_form_valid, create_post.
  view_unfold. unfold related. simpl. rewrite HU. simpl.
  set (k := fresh (dom (posts db))).
  set (p := mkPost _ _ _ _ _ _ _ _).
  set (db' := set_posts _ db).
  assert (posts db' !! k = Some p) as Hk by apply lookup_insert_eq.
  exists k, p. split; [apply fresh_post_key|]. split; [done|]. split.
  - intros at_time.
    apply (PostDetailView_get_object_author db' at_time k p Hk).
  - unfold ProfileView_get_queryset.
    rewrite (ProfileView_profile_stored db' user_id U Huniq HU). simpl.
    eexists. split; [done|].
    rewrite order_by_Permutation, annotate_stored.
    rewrite (filter_stored (λ kp, author kp.2 = user_id)
               (λ r, author (post r) = user_id)) by done.
    rewrite Post_objects_stored. apply list_elem_of_filter. split; [done|].
    by apply elem_of_map_to_list.
Qed.

End more_outcomes.

Lemma missing_object_not_found_witness :
  PostDetailView_get_object AnonymousUser Sample.now 9 Sample.db
    = Raise Http404
  ∧ respond (PostUpdateView_dispatch (mkRequest AnonymousUser GET None) 9)
      Sample.db
    = (HttpResponseNotFound, Sample.db)
  ∧ respond (EditCommentView_dispatch "/auth/login/"
               (mkRequest AnonymousUser GET None) 9) Sample.db
    = (HttpResponseNotFound, Sample.db)
  ∧ respond (DeleteCommentView_dispatch "/auth/login/"
               (mkRequest AnonymousUser GET None) 1 9) Sample.db
    = (HttpResponseNotFound, Sample.db)
  ∧ (is_authenticated AnonymousUser = true →
     respond (PostDeleteView_dispatch "/auth/login/"
                (mkRequest AnonymousUser GET None) 9) Sample.db
     = (HttpResponseNotFound, Sample.db)).
Proof.
  apply (missing_object_not_found "/auth/login/" Sample.db Sample.now 9 9 1
           AnonymousUser GET None None None); reflexivity.
Defined.

Lemma PostCreateView_post_reaches_author_witness :
  let db' := (respond (PostCreateView_dispatch 60
                         (mkRequest (LoggedIn 2) POST
                            (Some (mkPostForm "six" "sixth" 2 None 70 false))))
                Sample.db).2 in
  ∃ k p,
    posts Sample.db !! k = None
    ∧ posts db' !! k = Some p
    ∧ (∀ at_time, PostDetailView_get_object (LoggedIn 2) at_time k db'
                  = Ok (mkInstance k p))
    ∧ ∃ qs, ProfileView_get_queryset AnonymousUser (username Sample.bob) db'
            = Ok qs
            ∧ (k, p) ∈ stored <$> qs.
Proof.
  apply (PostCreateView_post_reaches_author Sample.db 60 2 Sample.bob
           (mkPostForm "six" "sixth" 2 None 70 false) AnonymousUser);
    [exact unique_usernames_sample | reflexivity].
Defined.


Lemma PostDeleteView_removes_only_own_post_witness :
  posts (respond (PostDeleteView_dispatch "/auth/login/"
                    (mkRequest (LoggedIn 2) POST None) 1) Sample.db).2 !! 1
  = Some Sample.p1.
Proof.
  pose proof (PostDeleteView_removes_only_own_post "/auth/login/" Sample.db 1
                (mkRequest (LoggedIn 2) POST None))
    as (_ & _ & _ & _ & Hkept & _).
  apply Hkept; [reflexivity | discriminate].
Defined.


Lemma DeleteCommentView_removes_only_own_comment_witness :
  comments (respond (DeleteCommentView_dispatch "/auth/login/"
                       (mkRequest (LoggedIn 1) POST None) 1 1)
              Sample.db).2 !! 1
  = Some Sample.c1.
Proof.
  pose proof (DeleteCommentView_removes_only_own_comment "/auth/login/"
                Sample.db 1 1 (mkRequest (LoggedIn 1) POST None))
    as (_ & _ & _ & _ & _ & Hkept).
  apply Hkept; [reflexivity | discriminate].
Defined.

Lemma EditProfileView_edits_only_caller_witness :
  ∃ U', users (respond (EditProfileView_dispatch "/auth/login/"
                          (mkRequest (LoggedIn 2) POST
                             (Some (mkUser "robert" "Bob" "B" "b@example.org"))))
                 Sample.db).2 !! 2 = Some U'
        ∧ (respond (EditProfileView_dispatch "/auth/login/"
                      (mkRequest (LoggedIn 2) POST
                         (Some (mkUser "robert" "Bob" "B" "b@example.org"))))
             Sample.db).1
          = HttpResponseRedirect (profile (username U')).
Proof.
  pose proof (EditProfileView_edits_only_caller "/auth/login/" Sample.db
                (mkRequest (LoggedIn 2) POST
                   (Some (mkUser "robert" "Bob" "B" "b@example.org"))))
    as (_ & _ & _ & _ & Hedit).
  apply (Hedit 2 Sample.bob (mkUser "robert" "Bob" "B" "b@example.org"));
    reflexivity.
Defined.
